(** * Pastebin-Lite: the paste lifecycle and its HTTP handlers

    A shallow embedding of [app/models.py], [app/utils.py], [app/schemas.py]
    and the handlers of [app/main.py], followed by the properties of the
    paste lifecycle: view limits, expiry, the one-way [is_active] flag, the
    frame of each handler and the clock used by a request.

    Conventions.
    - Python integers are [Z].
    - A timezone-aware UTC [datetime] is the number of microseconds since
      1970-01-01T00:00:00Z, a [Z]; [datetime.now(timezone.utc)] is an input of
      every handler (the [clock] argument).
    - The [pastes] table is a finite map from the primary key [id] to the
      row. Its [Integer] columns hold 32-bit signed integers and its text
      parameters no NUL character: a statement that breaks either is refused
      and nothing is written. The timestamps read back from it are in UTC.
    - Exceptions are values of [exn]; code that may raise returns a [result].
    - [int()] and [datetime.fromtimestamp] are an interface, [PyRuntime]: the
      properties of the handlers hold for every implementation of it;
      [cpython] is the one on which the handlers are evaluated, and the one
      of which the conversion of the test header is proved. *)

From Stdlib Require Import ZArith Lia Bool.
From Stdlib Require Import Strings.Ascii Strings.String Strings.Byte.
From Stdlib Require Import Floats.SpecFloat.
From stdpp Require Import base option list strings gmap.

Local Open Scope string_scope.
Local Open Scope Z_scope.

(** ** Exceptions and results *)

(** The exception classes that the handlers meet, each with its message.
    [IntegrityError] is what the session raises on [commit] when the primary
    key is already taken, [DataError] when a value does not fit its
    column. *)
Inductive exn : Type :=
| ValueError (msg : string)
| OSError (msg : string)
| OverflowError (msg : string)
| IntegrityError (msg : string)
| DataError (msg : string).

Inductive result (A : Type) : Type :=
| Ok (a : A)
| Raise (e : exn).
Arguments Ok {A} a.
Arguments Raise {A} e.

#[global] Instance result_ret : MRet result := fun _ a => Ok a.
#[global] Instance result_bind : MBind result := fun _ _ f m =>
  match m with
  | Ok a => f a
  | Raise e => Raise e
  end.

(** [except (ValueError, OSError)] *)
Definition is_ValueError_or_OSError (e : exn) : bool :=
  match e with
  | ValueError _ | OSError _ => true
  | _ => false
  end.

(** [except ValueError] *)
Definition is_ValueError (e : exn) : bool :=
  match e with
  | ValueError _ => true
  | _ => false
  end.

(** [str(e)] *)
Definition exn_str (e : exn) : string :=
  match e with
  | ValueError msg | OSError msg | OverflowError msg | IntegrityError msg
  | DataError msg => msg
  end.

(** ** Time *)

Definition datetime : Type := Z.

(** [datetime.min] and [datetime.max] with [tzinfo=UTC], in microseconds:
    0001-01-01T00:00:00.000000 and 9999-12-31T23:59:59.999999. *)
Definition datetime_min : datetime := -62135596800000000.
Definition datetime_max : datetime := 253402300799999999.

Definition datetime_in_range (dt : datetime) : bool :=
  (datetime_min <=? dt) && (dt <=? datetime_max).

(** [dt + timedelta(seconds=s)]: both the construction of the [timedelta] and
    the addition raise [OverflowError] when the result leaves the range of
    [datetime]. *)
Definition datetime_add_seconds (dt : datetime) (s : Z) : result datetime :=
  let r := dt + s * 1000000 in
  if datetime_in_range r then Ok r
  else Raise (OverflowError "date value out of range").

(** ** The Python runtime

    Two library calls of [get_current_time] are kept as an interface:
    - [py_int s] is [int(s)] on a [str]: the integer, or [None] for the
      [ValueError] it raises otherwise;
    - [fromtimestamp_ms ms] is
      [datetime.fromtimestamp(ms / 1000, tz=timezone.utc)]: the true division
      to a [float], the rounding to microseconds and the range checks of the
      platform. It returns, or raises [ValueError], [OSError] or
      [OverflowError]. *)
Class PyRuntime : Type := {
  py_int : string → option Z;
  fromtimestamp_ms : Z → result datetime
}.

(** ** Strings of code points

    [content] is a Python [str]: a sequence of Unicode code points. *)
Definition str : Type := list N.

Definition str_of_string (s : string) : str :=
  Ascii.N_of_ascii <$> String.list_ascii_of_string s.

(** [c.isspace()]: the code points that [str.strip()] removes. *)
Definition isspace (c : N) : bool :=
  ((0x09 <=? c) && (c <=? 0x0D) ||
   (0x1C <=? c) && (c <=? 0x20) ||
   (c =? 0x85) || (c =? 0xA0) || (c =? 0x1680) ||
   (0x2000 <=? c) && (c <=? 0x200A) ||
   (c =? 0x2028) || (c =? 0x2029) || (c =? 0x202F) ||
   (c =? 0x205F) || (c =? 0x3000))%N.

Fixpoint lstrip (s : str) : str :=
  match s with
  | c :: s' => if isspace c then lstrip s' else s
  | [] => []
  end.

Definition rstrip (s : str) : str := reverse (lstrip (reverse s)).

(** [s.strip()] *)
Definition strip (s : str) : str := rstrip (lstrip s).

(** Truth value of a [str]: non-empty. *)
Definition str_truthy (s : str) : bool :=
  match s with
  | [] => false
  | _ :: _ => true
  end.

(** The NUL character, U+0000, in a [str] and in a text of the embedding. *)
Definition str_has_nul (s : str) : bool := existsb (N.eqb 0) s.

Fixpoint has_nul (s : string) : bool :=
  match s with
  | EmptyString => false
  | String c s' => Ascii.eqb c Ascii.zero || has_nul s'
  end.

(** * app/models.py *)
Module models.

Record Paste : Type := {
  id : string;
  content : str;
  ttl_seconds : option Z;
  max_views : option Z;
  current_views : Z;
  created_at : datetime;
  expires_at : option datetime;
  is_active : bool
}.

(** [Column(Integer)]: a 32-bit signed integer of the database. *)
Definition Integer_min : Z := -2147483648.
Definition Integer_max : Z := 2147483647.

Definition fits_Integer (n : Z) : bool :=
  (Integer_min <=? n) && (n <=? Integer_max).

(** A nullable [Integer] column. *)
Definition fits_nullable_Integer (v : option Z) : bool :=
  match v with
  | Some n => fits_Integer n
  | None => true
  end.

(** [Paste.is_expired(self, current_time=None)]; [clock] is what
    [datetime.now(timezone.utc)] returns when [current_time] is [None]. *)
Definition is_expired (clock : datetime) (self : Paste)
    (current_time : option datetime) : bool :=
  match expires_at self with
  | None => false
  | Some e =>
      let current_time := default clock current_time in
      e <=? current_time
  end.

(** [Paste.is_view_limit_reached(self)] *)
Definition is_view_limit_reached (self : Paste) : bool :=
  match max_views self with
  | None => false
  | Some m => m <=? current_views self
  end.

(** [Paste.is_available(self, current_time=None)] *)
Definition is_available (clock : datetime) (self : Paste)
    (current_time : option datetime) : bool :=
  if negb (is_active self) then false
  else if is_expired clock self current_time then false
  else if is_view_limit_reached self then false
  else true.

(** [Paste.get_remaining_views(self)] *)
Definition get_remaining_views (self : Paste) : option Z :=
  match max_views self with
  | None => None
  | Some m =>
      let remaining := m - current_views self in
      Some (Z.max 0 remaining)
  end.

(** The attribute assignments of the handlers. *)
Definition set_is_active (b : bool) (self : Paste) : Paste :=
  {| id := id self; content := content self;
     ttl_seconds := ttl_seconds self; max_views := max_views self;
     current_views := current_views self; created_at := created_at self;
     expires_at := expires_at self; is_active := b |}.

Definition set_current_views (n : Z) (self : Paste) : Paste :=
  {| id := id self; content := content self;
     ttl_seconds := ttl_seconds self; max_views := max_views self;
     current_views := n; created_at := created_at self;
     expires_at := expires_at self; is_active := is_active self |}.

End models.

(** ** Formatting helpers of the Python library *)

Definition digit_to_ascii (d : Z) : ascii :=
  Ascii.ascii_of_N (48 + Z.to_N d).

(** The value of a decimal digit. *)
Definition digit_of_ascii (c : ascii) : option Z :=
  let n := Z.of_N (Ascii.N_of_ascii c) in
  if (48 <=? n) && (n <=? 57) then Some (n - 48) else None.

Fixpoint decimal_digits (fuel : nat) (n : Z) (acc : string) : string :=
  match fuel with
  | O => acc
  | S fuel' =>
      let acc' := String (digit_to_ascii (n mod 10)) acc in
      if n <? 10 then acc' else decimal_digits fuel' (n / 10) acc'
  end.

(** [str(n)] for [0 <= n]. *)
Definition decimal (n : Z) : string :=
  decimal_digits (S (Z.to_nat (Z.log2 n))) n "".

(** [str(n)] *)
Definition int_str (n : Z) : string :=
  if n <? 0 then String "-"%char (decimal (- n)) else decimal n.

(** The [width] low decimal digits of [n], in front of [acc]. *)
Fixpoint padded (width : nat) (n : Z) (acc : string) : string :=
  match width with
  | O => acc
  | S width' =>
      padded width' (n / 10) (String (digit_to_ascii (n mod 10)) acc)
  end.

(** [0 <= n] written with at least [width] digits: padded with zeros when
    it has fewer. *)
Definition zero_padded (width : nat) (n : Z) : string :=
  if n <? 10 ^ Z.of_nat width then padded width n "" else decimal n.

(** ["%0<width>d" % n]: the sign counts in the width. *)
Definition fmt_0d (width : nat) (n : Z) : string :=
  if n <? 0 then String "-"%char (zero_padded (width - 1) (- n))
  else zero_padded width n.

(** [s.startswith(p)] *)
Fixpoint startswith (p s : string) : bool :=
  match p, s with
  | EmptyString, _ => true
  | String a p', String b s' => if Ascii.eqb a b then startswith p' s' else false
  | String _ _, EmptyString => false
  end.

(** [s.replace(old, new)] for a non-empty [old]: every occurrence, left to
    right, without overlap. [skip] counts the characters of a matched [old]
    that are still to be dropped. *)
Fixpoint replace_from (old new : string) (skip : nat) (s : string) : string :=
  match s with
  | EmptyString => EmptyString
  | String c s' =>
      match skip with
      | S k => replace_from old new k s'
      | O =>
          if startswith old s
          then new +:+ replace_from old new (String.length old - 1) s'
          else String c (replace_from old new 0 s')
      end
  end.

Definition replace (old new s : string) : string := replace_from old new 0 s.

(** [s.rstrip('/')] *)
Fixpoint rstrip_slash (s : string) : string :=
  match s with
  | EmptyString => EmptyString
  | String c s' =>
      match rstrip_slash s' with
      | EmptyString => if Ascii.eqb c "/"%char then EmptyString else String c EmptyString
      | r => String c r
      end
  end.

(** The proleptic Gregorian date [(year, month, day)] of a day number counted
    from 1970-01-01, as [date.fromordinal] gives it. *)
Definition civil_from_days (days : Z) : Z * Z * Z :=
  let z := days + 719468 in
  let era := z / 146097 in
  let doe := z - era * 146097 in
  let yoe := (doe - doe / 1460 + doe / 36524 - doe / 146096) / 365 in
  let doy := doe - (365 * yoe + yoe / 4 - yoe / 100) in
  let mp := (5 * doy + 2) / 153 in
  let d := doy - (153 * mp + 2) / 5 + 1 in
  let m := if mp <? 10 then mp + 3 else mp - 9 in
  let y := yoe + era * 400 + (if m <=? 2 then 1 else 0) in
  (y, m, d).

(** [dt.isoformat(timespec='milliseconds')] of an aware UTC [datetime]: the
    microseconds are truncated to milliseconds and the offset is [+00:00]. *)
Definition isoformat_milliseconds (dt : datetime) : string :=
  let days := dt / 86400000000 in
  let us := dt mod 86400000000 in
  let '(y, m, d) := civil_from_days days in
  let hh := us / 3600000000 in
  let mm := us / 60000000 mod 60 in
  let ss := us / 1000000 mod 60 in
  let microsecond := us mod 1000000 in
  fmt_0d 4 y +:+ "-" +:+ fmt_0d 2 m +:+ "-" +:+ fmt_0d 2 d +:+ "T" +:+
  fmt_0d 2 hh +:+ ":" +:+ fmt_0d 2 mm +:+ ":" +:+ fmt_0d 2 ss +:+ "." +:+
  fmt_0d 3 (microsecond / 1000) +:+ "+00:00".

(** * app/utils.py *)
Module utils.

(** What a handler reads of a [Request]: the headers (keys in lower case, as
    the server stores them) and [request.base_url]. *)
Record Request : Type := {
  headers : gmap string string;
  base_url : string
}.

(** [os.environ] *)
Definition environ : Type := gmap string string.

Section get_current_time.
Context `{PyRuntime}.

(** [get_current_time(request)]; [clock] is [datetime.now(timezone.utc)]. *)
Definition get_current_time (env : environ) (request : Request)
    (clock : datetime) : result datetime :=
  let test_mode := bool_decide (env !! "TEST_MODE" = Some "1") in
  let fall_through := Ok clock in
  if test_mode then
    match headers request !! "x-test-now-ms" with
    | Some test_time_ms =>
        if bool_decide (test_time_ms = "") then fall_through
        else
          let attempt :=
            match py_int test_time_ms with
            | Some ms => fromtimestamp_ms ms
            | None => Raise (ValueError "invalid literal for int()")
            end in
          match attempt with
          | Ok dt => Ok dt
          | Raise e =>
              if is_ValueError_or_OSError e then fall_through else Raise e
          end
    | None => fall_through
    end
  else fall_through.

End get_current_time.

(** [calculate_expiry_time(created_at, ttl_seconds)] *)
Definition calculate_expiry_time (created_at : datetime) (ttl_seconds : Z)
    : result datetime :=
  datetime_add_seconds created_at ttl_seconds.

(** [format_datetime_iso(dt)] *)
Definition format_datetime_iso (dt : datetime) : string :=
  let iso_string := isoformat_milliseconds dt in
  replace "+00:00" "Z" iso_string.

(** [get_base_url(request)] *)
Definition get_base_url (request : Request) : string :=
  rstrip_slash (base_url request).

(** [build_paste_url(request, paste_id)] *)
Definition build_paste_url (request : Request) (paste_id : string) : string :=
  get_base_url request +:+ "/p/" +:+ paste_id.

End utils.

(** * app/schemas.py *)
Module schemas.

(** The fields of a [PasteCreate]; an absent or [null] optional field is
    [None]. *)
Record PasteCreate : Type := {
  content : str;
  ttl_seconds : option Z;
  max_views : option Z
}.

(** [@validator('content')] *)
Definition content_not_empty (v : str) : result str :=
  if negb (str_truthy v) || negb (str_truthy (strip v))
  then Raise (ValueError "content must be a non-empty string")
  else Ok v.

(** [@validator('ttl_seconds')] *)
Definition ttl_positive (v : option Z) : result (option Z) :=
  match v with
  | Some n =>
      if n <? 1 then Raise (ValueError "ttl_seconds must be >= 1") else Ok v
  | None => Ok v
  end.

(** [@validator('max_views')] *)
Definition max_views_positive (v : option Z) : result (option Z) :=
  match v with
  | Some n =>
      if n <? 1 then Raise (ValueError "max_views must be >= 1") else Ok v
  | None => Ok v
  end.

(** The error of one field, if its validator raises. *)
Definition field_errors {A} (field : string) (r : result A)
    : list (string * string) :=
  match r with
  | Ok _ => []
  | Raise e => [(field, exn_str e)]
  end.

(** Validation of a body against [PasteCreate]: the validators run field by
    field, in the order of declaration, and every error is collected. *)
Definition validation_errors (body : PasteCreate) : list (string * string) :=
  field_errors "content" (content_not_empty (content body)) ++
  field_errors "ttl_seconds" (ttl_positive (ttl_seconds body)) ++
  field_errors "max_views" (max_views_positive (max_views body)).

End schemas.

(** * app/main.py *)
Module main.

(** The JSON documents that the handlers build. *)
Inductive json : Type :=
| error_json (error : string)
| created_json (id url : string)
| fetch_json (content : str) (remaining_views : option Z)
    (expires_at : option string)
| detail_json (detail : list (string * string)).

Record JSONResponse : Type := {
  content : json;
  status_code : Z
}.

(** The pages: a literal document, or a rendered template with its
    context: the request, the id and the content. *)
Inductive html : Type :=
| html_text (text : string)
| html_template (name : string) (request : utils.Request)
    (paste_id : string) (content : str).

Record HTMLResponse : Type := {
  html_content : html;
  html_status_code : Z
}.

(** The [pastes] table behind the session. *)
Abbreviation Session := (gmap string models.Paste).

(** What the database driver raises for a text parameter that holds a NUL
    character; it is a [ValueError]. *)
Definition nul_in_parameter : exn :=
  ValueError "A string literal cannot contain NUL (0x00) characters.".

(** [db.add(new_paste); db.commit()]. The driver refuses a text parameter
    with a NUL character before the statement is sent, the database refuses
    an integer that does not fit its [Integer] column, and the primary key
    must be free. *)
Definition add_commit (new_paste : models.Paste) (db : Session)
    : result Session :=
  if has_nul (models.id new_paste) || str_has_nul (models.content new_paste)
  then Raise nul_in_parameter
  else if negb (models.fits_nullable_Integer (models.ttl_seconds new_paste) &&
                models.fits_nullable_Integer (models.max_views new_paste) &&
                models.fits_Integer (models.current_views new_paste))
  then Raise (DataError "integer out of range")
  else
    match db !! models.id new_paste with
    | Some _ =>
        Raise (IntegrityError "duplicate key value violates unique constraint")
    | None => Ok (<[models.id new_paste := new_paste]> db)
    end.

(** [db.query(models.Paste).filter(models.Paste.id == paste_id).first()].
    The driver refuses a parameter with a NUL character. No stored id holds
    one, its [INSERT] being refused the same way ([add_commit]): a row
    under [paste_id] means that the query went through. *)
Definition query_first (db : Session) (paste_id : string)
    : result (option models.Paste) :=
  match db !! paste_id with
  | Some paste => Ok (Some paste)
  | None => if has_nul paste_id then Raise nul_in_parameter else Ok None
  end.

(** [db.commit()] after [paste.current_views += 1]: the new count must fit
    the [Integer] column, or the [UPDATE] is refused and the row is left as
    it was. *)
Definition commit_view (paste_id : string) (paste : models.Paste)
    (db : Session) : result Session :=
  if models.fits_Integer (models.current_views paste)
  then Ok (<[paste_id := paste]> db)
  else Raise (DataError "integer out of range").

(** Truth value of an optional integer: present and not zero. *)
Definition int_truthy (v : option Z) : bool :=
  match v with
  | Some n => negb (n =? 0)
  | None => false
  end.

Section handlers.
Context `{PyRuntime}.
Variable env : utils.environ.
(** [datetime.now(timezone.utc)] during the request. *)
Variable clock : datetime.

(** [create_paste(paste_data, request, db)]; [token] is the value that
    [generate_paste_id()] draws. *)
Definition create_paste (token : string) (paste_data : schemas.PasteCreate)
    (request : utils.Request) (db : Session) : JSONResponse * Session :=
  let attempt : result (JSONResponse * Session) :=
    let paste_id := token in
    created_at ← utils.get_current_time env request clock;
    expires_at ←
      (if int_truthy (schemas.ttl_seconds paste_data)
       then e ← utils.calculate_expiry_time created_at
                  (default 0 (schemas.ttl_seconds paste_data));
            Ok (Some e)
       else Ok None);
    let new_paste :=
      {| models.id := paste_id;
         models.content := schemas.content paste_data;
         models.ttl_seconds := schemas.ttl_seconds paste_data;
         models.max_views := schemas.max_views paste_data;
         models.current_views := 0;
         models.created_at := created_at;
         models.expires_at := expires_at;
         models.is_active := true |} in
    db' ← add_commit new_paste db;
    let paste_url := utils.build_paste_url request paste_id in
    Ok ({| content := created_json paste_id paste_url;
           status_code := 200 |}, db') in
  match attempt with
  | Ok r => r
  | Raise e =>
      if is_ValueError e
      then ({| content := error_json (exn_str e); status_code := 400 |}, db)
      else ({| content := error_json "Internal server error";
               status_code := 500 |}, db)
  end.

(** [fetch_paste(paste_id, request, db)] *)
Definition fetch_paste (paste_id : string) (request : utils.Request)
    (db : Session) : JSONResponse * Session :=
  let attempt : result (JSONResponse * Session) :=
    current_time ← utils.get_current_time env request clock;
    paste ← query_first db paste_id;
    match paste with
    | None =>
        Ok ({| content := error_json "Paste not found";
               status_code := 404 |}, db)
    | Some paste =>
        if negb (models.is_available clock paste (Some current_time)) then
          let paste := models.set_is_active false paste in
          let db := <[paste_id := paste]> db in
          let error_msg :=
            if models.is_expired clock paste (Some current_time)
            then "Paste has expired"
            else if models.is_view_limit_reached paste
            then "View limit exceeded"
            else "Paste not available" in
          Ok ({| content := error_json error_msg; status_code := 404 |}, db)
        else
          let paste :=
            models.set_current_views (models.current_views paste + 1)
              paste in
          let paste :=
            if models.is_view_limit_reached paste
            then models.set_is_active false paste
            else paste in
          db ← commit_view paste_id paste db;
          let response_data :=
            fetch_json (models.content paste)
              (models.get_remaining_views paste)
              (utils.format_datetime_iso <$> models.expires_at paste) in
          Ok ({| content := response_data; status_code := 200 |}, db)
    end in
  match attempt with
  | Ok r => r
  | Raise e =>
      ({| content := error_json "Internal server error";
          status_code := 500 |}, db)
  end.

(** [view_paste(paste_id, request, db)] *)
Definition view_paste (paste_id : string) (request : utils.Request)
    (db : Session) : HTMLResponse * Session :=
  let attempt : result (HTMLResponse * Session) :=
    current_time ← utils.get_current_time env request clock;
    paste ← query_first db paste_id;
    match paste with
    | None =>
        Ok ({| html_content :=
                 html_text
                   "<html><body><h1>404 - Paste Not Found</h1></body></html>";
               html_status_code := 404 |}, db)
    | Some paste =>
        if negb (models.is_available clock paste (Some current_time)) then
          let paste := models.set_is_active false paste in
          let db := <[paste_id := paste]> db in
          let error_msg :=
            if models.is_expired clock paste (Some current_time)
            then "Paste Has Expired"
            else if models.is_view_limit_reached paste
            then "View Limit Exceeded"
            else "Paste Not Available" in
          Ok ({| html_content :=
                   html_text ("<html><body><h1>404 - " +:+ error_msg +:+
                              "</h1></body></html>");
                 html_status_code := 404 |}, db)
        else
          Ok ({| html_content :=
                   html_template "view_paste.html" request paste_id
                     (models.content paste);
                 html_status_code := 200 |}, db)
    end in
  match attempt with
  | Ok r => r
  | Raise e =>
      ({| html_content :=
            html_text
              ("<html><body><h1>500 - Internal Server Error</h1><p>Error: "
               +:+ exn_str e +:+ "</p></body></html>");
          html_status_code := 500 |}, db)
  end.

End handlers.

(** The row that a successful [fetch_paste] commits: the view is counted,
    and the row is switched off when this view reaches the limit. *)
Definition viewed (paste : models.Paste) : models.Paste :=
  let paste :=
    models.set_current_views (models.current_views paste + 1) paste in
  if models.is_view_limit_reached paste
  then models.set_is_active false paste
  else paste.

(** [validation_exception_handler(request, exc)] *)
Definition validation_exception_handler : JSONResponse :=
  {| content := error_json "Invalid input"; status_code := 400 |}.

(** [internal_error_handler(request, exc)] *)
Definition internal_error_handler : JSONResponse :=
  {| content := error_json "Internal server error"; status_code := 500 |}.

(** The key under which [@app.exception_handler(key)] registers a handler:
    an integer status code or an exception class. *)
Inductive handler_key : Type :=
| for_status_code (code : Z)
| for_exception_class (name : string).

#[global] Instance handler_key_eq_dec : EqDecision handler_key.
Proof. solve_decision. Defined.

(** The handlers that [main.py] registers: both under a status code. *)
Definition exception_handlers : list (handler_key * JSONResponse) :=
  [ (for_status_code 422, validation_exception_handler);
    (for_status_code 500, internal_error_handler) ].

Definition registered_handler (key : handler_key) : option JSONResponse :=
  snd <$> find (λ kh, bool_decide (fst kh = key)) exception_handlers.

(** The answer to a body that fails the validation of [PasteCreate]. The
    framework raises [RequestValidationError] before the handler runs and
    looks a handler up by exception class: handlers registered under a
    status code serve [HTTPException] only. Without one, its default handler
    answers 422 with the list of errors. *)
Definition on_request_validation_error (errors : list (string * string))
    : JSONResponse :=
  match registered_handler (for_exception_class "RequestValidationError") with
  | Some response => response
  | None => {| content := detail_json errors; status_code := 422 |}
  end.

(** The three routes that read or write the table. *)
Inductive route : Type :=
| POST_api_pastes (token : string) (body : schemas.PasteCreate)
| GET_api_pastes (paste_id : string)
| GET_p (paste_id : string).

(** One HTTP call: the process environment and the wall clock when it is
    served, the request, and its route. *)
Record call : Type := {
  call_env : utils.environ;
  call_clock : datetime;
  call_request : utils.Request;
  call_route : route
}.

Section routes.
Context `{PyRuntime}.

(** [POST /api/pastes]: validation of the body, then [create_paste]. *)
Definition post_api_pastes (env : utils.environ) (clock : datetime)
    (token : string) (body : schemas.PasteCreate) (request : utils.Request)
    (db : Session) : JSONResponse * Session :=
  match schemas.validation_errors body with
  | [] => create_paste env clock token body request db
  | errors => (on_request_validation_error errors, db)
  end.

(** The table after one call. *)
Definition serve (db : Session) (c : call) : Session :=
  match call_route c with
  | POST_api_pastes token body =>
      snd (post_api_pastes (call_env c) (call_clock c) token body
             (call_request c) db)
  | GET_api_pastes paste_id =>
      snd (fetch_paste (call_env c) (call_clock c) paste_id
             (call_request c) db)
  | GET_p paste_id =>
      snd (view_paste (call_env c) (call_clock c) paste_id
             (call_request c) db)
  end.

(** The table after a sequence of calls, served one after the other. *)
Definition serve_all (db : Session) (cs : list call) : Session :=
  foldl serve db cs.

(** The responses of successive fetches of one paste, each with the table
    it leaves. *)
Fixpoint fetch_each (paste_id : string)
    (cs : list (utils.environ * datetime * utils.Request)) (db : Session)
    : list (JSONResponse * Session) :=
  match cs with
  | [] => []
  | (env, clock, request) :: cs' =>
      let r := fetch_paste env clock paste_id request db in
      r :: fetch_each paste_id cs' (snd r)
  end.

End routes.

End main.

(** * A reference runtime: CPython on a 64-bit Linux

    [float] is binary64, computed with the operations of [SpecFloat]. *)
Module cpython.

(** Binary64, the [float] of Python. *)
Definition prec : Z := 53.
Definition emax : Z := 1024.

(** An integer as an exact (not normalised) operand. *)
Definition exact_int (n : Z) : spec_float :=
  match n with
  | Z0 => S754_zero false
  | Zpos p => S754_finite false p 0
  | Zneg p => S754_finite true p 0
  end.

(** [a / b] on two [int]: the correctly rounded quotient. *)
Definition truediv (a b : Z) : spec_float :=
  SFdiv prec emax (exact_int a) (exact_int b).

(** C [modf]: the integral part, and the fractional part as a [float]. *)
Definition modf (d : spec_float) : Z * spec_float :=
  match d with
  | S754_finite s m e =>
      if 0 <=? e then (cond_Zopp s (Zpos m * 2 ^ e), S754_zero s)
      else
        let k := 2 ^ (- e) in
        (cond_Zopp s (Zpos m / k),
         binary_normalize prec emax (cond_Zopp s (Zpos m mod k)) e s)
  | _ => (0, d)
  end.

(** Rounding of a [float] to the nearest integer, ties to even. *)
Definition round_half_even (x : spec_float) : Z :=
  match x with
  | S754_finite s m e =>
      if 0 <=? e then cond_Zopp s (Zpos m * 2 ^ e)
      else
        let k := 2 ^ (- e) in
        let q := Zpos m / k in
        let r := Zpos m mod k in
        cond_Zopp s
          match 2 * r ?= k with
          | Lt => q
          | Gt => q + 1
          | Eq => if Z.even q then q else q + 1
          end
  | _ => 0
  end.

(** The split of a timestamp into seconds and microseconds. *)
Definition to_timeval (d : spec_float) : Z * Z :=
  let '(intpart, floatpart) := modf d in
  let floatpart := SFmul prec emax floatpart (exact_int 1000000) in
  let us := round_half_even floatpart in
  if 1000000 <=? us then (intpart + 1, us - 1000000)
  else if us <? 0 then (intpart - 1, us + 1000000)
  else (intpart, us).

(** A C [int]: 32 bits, two's complement. *)
Definition c_int (n : Z) : Z := (n + 2 ^ 31) mod 2 ^ 32 - 2 ^ 31.

(** [datetime.fromtimestamp(ms / 1000, tz=timezone.utc)]: the conversion to
    seconds and microseconds checks the range of [time_t], [gmtime] fails
    when [tm_year] does not fit an [int], and the constructor of [datetime]
    rejects a year ([tm_year + 1900], computed as an [int]) outside 1 to
    9999. *)
Definition fromtimestamp_utc_ms (ms : Z) : result datetime :=
  match truediv ms 1000 with
  | S754_infinity _ | S754_nan =>
      Raise (OverflowError "integer division result too large for a float")
  | d =>
      let '(sec, us) := to_timeval d in
      if negb ((- 2 ^ 63 <=? sec) && (sec <=? 2 ^ 63))
      then Raise (OverflowError "timestamp out of range for platform time_t")
      else
        let '(year, _, _) := civil_from_days (sec / 86400) in
        if negb ((- 2 ^ 31 <=? year - 1900) && (year - 1900 <? 2 ^ 31))
        then Raise (OSError "[Errno 75] Value too large for defined data type")
        else
        let year := c_int year in
        if negb ((1 <=? year) && (year <=? 9999))
        then Raise (ValueError ("year " +:+ int_str year +:+ " is out of range"))
        else Ok (sec * 1000000 + us)
  end.

(** The rest of an integer literal after a digit: digits, each possibly
    preceded by one underscore. *)
Fixpoint int_digits (acc : Z) (s : string) : option Z :=
  match s with
  | EmptyString => Some acc
  | String c s' =>
      match digit_of_ascii c with
      | Some d => int_digits (acc * 10 + d) s'
      | None =>
          if Ascii.eqb c "_" then
            match s' with
            | String c' s'' =>
                match digit_of_ascii c' with
                | Some d => int_digits (acc * 10 + d) s''
                | None => None
                end
            | EmptyString => None
            end
          else None
      end
  end.

Definition int_literal (s : string) : option Z :=
  let '(negative, body) :=
    match s with
    | String "-" r => (true, r)
    | String "+" r => (false, r)
    | _ => (false, s)
    end in
  match body with
  | String c r =>
      match digit_of_ascii c with
      | Some d => (if negative then Z.opp else id) <$> int_digits d r
      | None => None
      end
  | EmptyString => None
  end.

(** The white space that [int()] skips at both ends of a [str] whose code
    points are below 256: the ASCII white space of C, and U+0085 and U+00A0,
    which it first turns into spaces. U+001C to U+001F are not skipped (they
    are white space for [str.strip] only). *)
Definition is_space (c : ascii) : bool :=
  let n := Ascii.N_of_ascii c in
  ((9 <=? n) && (n <=? 13) || (n =? 32) || (n =? 133) || (n =? 160))%N.

Fixpoint lstrip_spaces (s : string) : string :=
  match s with
  | String c s' => if is_space c then lstrip_spaces s' else s
  | EmptyString => EmptyString
  end.

Definition strip_spaces (s : string) : string :=
  String.rev (lstrip_spaces (String.rev (lstrip_spaces s))).

(** The number of decimal digits of a text. *)
Fixpoint count_digits (s : string) : Z :=
  match s with
  | EmptyString => 0
  | String c s' =>
      match digit_of_ascii c with
      | Some _ => 1 + count_digits s'
      | None => count_digits s'
      end
  end.

(** [sys.int_max_str_digits], by default. *)
Definition int_max_str_digits : Z := 4300.

(** [int(s)] on a [str] whose code points are below 256, as the value of a
    header is: white space, a sign, digits and underscores, and at most
    [int_max_str_digits] digits. [None] stands for the [ValueError]. *)
Definition int (s : string) : option Z :=
  let literal := strip_spaces s in
  if int_max_str_digits <? count_digits literal then None
  else int_literal literal.

#[global] Instance runtime : PyRuntime :=
  {| py_int := int; fromtimestamp_ms := fromtimestamp_utc_ms |}.

End cpython.

(** * The paste ids: [secrets.token_urlsafe] of CPython *)
Module secrets.

(** The alphabet of [binascii.b2a_base64]. *)
Definition table_b2a_base64 : string :=
  "ABCDEFGHIJKLMNOPQRSTUVWXYZabcdefghijklmnopqrstuvwxyz0123456789+/".

Definition b64_char (this_ch : N) : ascii :=
  default "="%char (String.get (N.to_nat (N.land this_ch 63)) table_b2a_base64).

(** [binascii.b2a_base64(s, newline=False)]: three bytes give four
    characters of six bits each; a rest of one or two bytes is padded with
    [=]. *)
Fixpoint b2a_base64 (s : list Byte.byte) : string :=
  match s with
  | [] => ""
  | [a] =>
      let leftchar := N.shiftl (Byte.to_N a) 16 in
      String (b64_char (N.shiftr leftchar 18))
        (String (b64_char (N.shiftr leftchar 12)) "==")
  | [a; b] =>
      let leftchar :=
        N.lor (N.shiftl (Byte.to_N a) 16) (N.shiftl (Byte.to_N b) 8) in
      String (b64_char (N.shiftr leftchar 18))
        (String (b64_char (N.shiftr leftchar 12))
           (String (b64_char (N.shiftr leftchar 6)) "="))
  | a :: b :: c :: rest =>
      let leftchar :=
        N.lor (N.lor (N.shiftl (Byte.to_N a) 16) (N.shiftl (Byte.to_N b) 8))
          (Byte.to_N c) in
      String (b64_char (N.shiftr leftchar 18))
        (String (b64_char (N.shiftr leftchar 12))
           (String (b64_char (N.shiftr leftchar 6))
              (String (b64_char leftchar) (b2a_base64 rest))))
  end.

(** [bytes.translate] with the table that maps [+] to [-] and [/] to [_]. *)
Definition urlsafe_encode_translation (c : ascii) : ascii :=
  if Ascii.eqb c "+" then "-"%char
  else if Ascii.eqb c "/" then "_"%char
  else c.

Fixpoint translate (table : ascii → ascii) (s : string) : string :=
  match s with
  | EmptyString => EmptyString
  | String c s' => String (table c) (translate table s')
  end.

(** [base64.urlsafe_b64encode(s)] *)
Definition urlsafe_b64encode (s : list Byte.byte) : string :=
  translate urlsafe_encode_translation (b2a_base64 s).

(** [s.rstrip(b'=')] *)
Fixpoint rstrip_pad (s : string) : string :=
  match s with
  | EmptyString => EmptyString
  | String c s' =>
      match rstrip_pad s' with
      | EmptyString =>
          if Ascii.eqb c "="%char then EmptyString else String c EmptyString
      | r => String c r
      end
  end.

(** [token_urlsafe(nbytes)]; [randbytes] is the generator of the system,
    [_sysrand.randbytes], behind [token_bytes]. *)
Definition token_bytes (randbytes : nat → list Byte.byte) (nbytes : nat)
    : list Byte.byte :=
  randbytes nbytes.

Definition token_urlsafe (randbytes : nat → list Byte.byte) (nbytes : nat)
    : string :=
  let tok := token_bytes randbytes nbytes in
  rstrip_pad (urlsafe_b64encode tok).

End secrets.

(** [generate_paste_id(length)] of [app/utils.py]; [create_paste] calls it
    with the default [length = 8]. *)
Definition generate_paste_id (randbytes : nat → list Byte.byte)
    (length : nat) : string :=
  secrets.token_urlsafe randbytes length.

(** * Vocabulary of the properties *)

(** The columns that only [create_paste] writes. *)
Definition same_frame (p p' : models.Paste) : Prop :=
  models.id p' = models.id p ∧
  models.content p' = models.content p ∧
  models.ttl_seconds p' = models.ttl_seconds p ∧
  models.max_views p' = models.max_views p ∧
  models.created_at p' = models.created_at p ∧
  models.expires_at p' = models.expires_at p.

(** A later state of a row: same frame, no view lost, never switched on
    again. *)
Definition evolves (p p' : models.Paste) : Prop :=
  same_frame p p' ∧
  models.current_views p ≤ models.current_views p' ∧
  (models.is_active p' = true → models.is_active p = true).

(** A fetch is made at a reference time when [get_current_time] returns. *)
Definition has_reference_time `{PyRuntime}
    (c : utils.environ * datetime * utils.Request) : Prop :=
  ∃ now, utils.get_current_time c.1.1 c.2 c.1.2 = Ok now.

(** The row that [create_paste] inserts at reference time [created_at]. *)
Definition new_paste (token : string) (paste_data : schemas.PasteCreate)
    (created_at : datetime) : models.Paste :=
  {| models.id := token;
     models.content := schemas.content paste_data;
     models.ttl_seconds := schemas.ttl_seconds paste_data;
     models.max_views := schemas.max_views paste_data;
     models.current_views := 0;
     models.created_at := created_at;
     models.expires_at :=
       T ← schemas.ttl_seconds paste_data; Some (created_at + T * 1000000);
     models.is_active := true |}.

(** The table [db] is what a fetch or a page render of [paste_id] leaves of
    [db0] when it answers 404. *)
Definition observed_unavailable `{PyRuntime} (db0 : gmap string models.Paste)
    (paste_id : string) (db : gmap string models.Paste) : Prop :=
  ∃ env clock request,
    (let r := main.fetch_paste env clock paste_id request db0 in
     main.status_code (fst r) = 404 ∧ db = snd r) ∨
    (let r := main.view_paste env clock paste_id request db0 in
     main.html_status_code (fst r) = 404 ∧ db = snd r).

(** The shape of a timestamp: each position is a decimal digit or a fixed
    character. *)
Inductive char_class : Type :=
| a_digit
| exactly (c : ascii).

Definition is_digit (c : ascii) : bool :=
  let n := Ascii.N_of_ascii c in ((48 <=? n) && (n <=? 57))%N.

Definition in_class (k : char_class) (c : ascii) : bool :=
  match k with
  | a_digit => is_digit c
  | exactly c' => Ascii.eqb c' c
  end.

Fixpoint has_shape (shape : list char_class) (s : string) : bool :=
  match shape, s with
  | [], EmptyString => true
  | k :: shape', String c s' => in_class k c && has_shape shape' s'
  | _, _ => false
  end.

(** [YYYY-MM-DDTHH:MM:SS.mmm], and the same followed by [Z]. *)
Definition iso8601_ms : list char_class :=
  replicate 4 a_digit ++ [exactly "-"%char] ++
  replicate 2 a_digit ++ [exactly "-"%char] ++
  replicate 2 a_digit ++ [exactly "T"%char] ++
  replicate 2 a_digit ++ [exactly ":"%char] ++
  replicate 2 a_digit ++ [exactly ":"%char] ++
  replicate 2 a_digit ++ [exactly "."%char] ++
  replicate 3 a_digit.

Definition iso8601_ms_z : list char_class :=
  iso8601_ms ++ [exactly "Z"%char].

Definition is_iso8601_ms_z (s : string) : bool := has_shape iso8601_ms_z s.

(** The day number, counted from 1970-01-01, of a proleptic Gregorian
    date. *)
Definition days_from_civil (y m d : Z) : Z :=
  let y := if m <=? 2 then y - 1 else y in
  let era := y / 400 in
  let yoe := y - era * 400 in
  let mp := if 2 <? m then m - 3 else m + 9 in
  let doy := (153 * mp + 2) / 5 + d - 1 in
  let doe := yoe * 365 + yoe / 4 - yoe / 100 + doy in
  era * 146097 + doe - 719468.

(** Exactly [k] decimal digits, the most significant first, and the rest of
    the text. *)
Fixpoint take_digits (k : nat) (acc : Z) (s : string) : option (Z * string) :=
  match k with
  | O => Some (acc, s)
  | S k' =>
      match s with
      | EmptyString => None
      | String c s' =>
          match digit_of_ascii c with
          | Some d => take_digits k' (acc * 10 + d) s'
          | None => None
          end
      end
  end.

Definition take_char (c : ascii) (s : string) : option string :=
  match s with
  | String c' s' => if Ascii.eqb c c' then Some s' else None
  | EmptyString => None
  end.

(** The instant, in microseconds, that a text [YYYY-MM-DDTHH:MM:SS.mmmZ]
    denotes. *)
Definition parse_iso8601_ms_z (s : string) : option datetime :=
  '(y, s) ← take_digits 4 0 s; s ← take_char "-" s;
  '(m, s) ← take_digits 2 0 s; s ← take_char "-" s;
  '(d, s) ← take_digits 2 0 s; s ← take_char "T" s;
  '(hh, s) ← take_digits 2 0 s; s ← take_char ":" s;
  '(mm, s) ← take_digits 2 0 s; s ← take_char ":" s;
  '(ss, s) ← take_digits 2 0 s; s ← take_char "." s;
  '(ms, s) ← take_digits 3 0 s; s ← take_char "Z" s;
  if bool_decide (s = "") then
    Some ((((days_from_civil y m d * 24 + hh) * 60 + mm) * 60 + ss) * 1000000
          + ms * 1000)
  else None.

(** The fields of a [datetime] in range, and the text that
    [format_datetime_iso] writes with them. *)
Record fields : Type := {
  year : Z; month : Z; day : Z;
  hour : Z; minute : Z; second : Z; millisecond : Z
}.

Definition fields_text (f : fields) : string :=
  fmt_0d 4 (year f) +:+ "-" +:+ fmt_0d 2 (month f) +:+ "-" +:+
  fmt_0d 2 (day f) +:+ "T" +:+ fmt_0d 2 (hour f) +:+ ":" +:+
  fmt_0d 2 (minute f) +:+ ":" +:+ fmt_0d 2 (second f) +:+ "." +:+
  fmt_0d 3 (millisecond f).

Definition fields_in_range (f : fields) : Prop :=
  1 ≤ year f ≤ 9999 ∧ 1 ≤ month f ≤ 12 ∧ 1 ≤ day f ≤ 31 ∧
  0 ≤ hour f < 24 ∧ 0 ≤ minute f < 60 ∧ 0 ≤ second f < 60 ∧
  0 ≤ millisecond f < 1000.

Definition fields_instant (f : fields) : Z :=
  (((days_from_civil (year f) (month f) (day f) * 24 + hour f) * 60
    + minute f) * 60 + second f) * 1000000 + millisecond f * 1000.



(** What every row of a table built by the handlers satisfies: it is stored
    under its own id, its content is not blank, its view count is within its
    budget and the row is off once the budget is used up, and its expiry is
    its creation time plus its time to live. *)
Definition well_formed_row (k : string) (p : models.Paste) : Prop :=
  models.id p = k ∧
  strip (models.content p) ≠ [] ∧
  0 ≤ models.current_views p ∧
  (∀ m, models.max_views p = Some m →
        1 ≤ m ∧ models.current_views p ≤ m ∧
        (models.current_views p = m → models.is_active p = false)) ∧
  (∀ T, models.ttl_seconds p = Some T → 1 ≤ T) ∧
  models.expires_at p =
    (T ← models.ttl_seconds p; Some (models.created_at p + T * 1000000)) ∧
  (∀ e, models.expires_at p = Some e → datetime_in_range e = true).

Definition well_formed (db : gmap string models.Paste) : Prop :=
  map_Forall well_formed_row db.


(** The number of calls of a history that are fetches of [paste_id] answered
    200. *)
Definition is_granted `{PyRuntime} (paste_id : string)
    (db : gmap string models.Paste) (c : main.call) : bool :=
  match main.call_route c with
  | main.GET_api_pastes pid =>
      bool_decide (pid = paste_id) &&
      (main.status_code
         (fst (main.fetch_paste (main.call_env c) (main.call_clock c) pid
                 (main.call_request c) db)) =? 200)
  | _ => false
  end.

Fixpoint granted `{PyRuntime} (paste_id : string)
    (db : gmap string models.Paste) (cs : list main.call) : Z :=
  match cs with
  | [] => 0
  | c :: cs' =>
      (if is_granted paste_id db c then 1 else 0) +
      granted paste_id (main.serve db c) cs'
  end.

(** [k] slashes, and whether a text ends with a slash. *)
Fixpoint slashes (k : nat) : string :=
  match k with
  | O => ""
  | S k' => String "/"%char (slashes k')
  end.

Fixpoint ends_with_slash (s : string) : bool :=
  match s with
  | EmptyString => false
  | String c EmptyString => Ascii.eqb c "/"%char
  | String _ s' => ends_with_slash s'
  end.

(** The paste id that a route names: the id drawn for a creation, the path
    parameter of a fetch or a page render. *)
Definition route_id (r : main.route) : string :=
  match r with
  | main.POST_api_pastes token _ => token
  | main.GET_api_pastes paste_id => paste_id
  | main.GET_p paste_id => paste_id
  end.

(** Every character of a text satisfies [f]. *)
Fixpoint all_chars (f : ascii → bool) (s : string) : bool :=
  match s with
  | EmptyString => true
  | String c s' => f c && all_chars f s'
  end.

(** A letter, a digit, a hyphen or an underscore. *)
Definition is_url_safe (c : ascii) : bool :=
  let n := Ascii.N_of_ascii c in
  ((48 <=? n) && (n <=? 57) || (65 <=? n) && (n <=? 90) ||
   (97 <=? n) && (n <=? 122) || (n =? 45) || (n =? 95))%N.

(** [k] padding characters. *)
Fixpoint pads (k : nat) : string :=
  match k with
  | O => ""
  | S k' => String "="%char (pads k')
  end.

(** Concrete requests, environments and rows on which the handlers are
    evaluated. *)
Module sample.

(** A request without the test header, and one that carries it. *)
Definition request : utils.Request :=
  {| utils.headers := ∅; utils.base_url := "http://testserver/" |}.

Definition request_at (test_now_ms : string) : utils.Request :=
  {| utils.headers := {[ "x-test-now-ms" := test_now_ms ]};
     utils.base_url := "http://testserver/" |}.

Definition production : utils.environ := ∅.
Definition test_mode : utils.environ := {[ "TEST_MODE" := "1" ]}.

(** 2024-01-01T00:00:00Z *)
Definition t0 : datetime := 1704067200000000.

(** A row created at [t0] with [ttl_seconds = 60] and [max_views = 2]. *)
Definition paste : models.Paste :=
  {| models.id := "abc";
     models.content := str_of_string "Hello, World!";
     models.ttl_seconds := Some 60;
     models.max_views := Some 2;
     models.current_views := 0;
     models.created_at := t0;
     models.expires_at := Some (t0 + 60000000);
     models.is_active := true |}.

Definition db : gmap string models.Paste := {[ "abc" := paste ]}.

Definition body : schemas.PasteCreate :=
  {| schemas.content := str_of_string "Hello, World!";
     schemas.ttl_seconds := Some 60;
     schemas.max_views := Some 2 |}.

(** [{"content": "x", "max_views": 1}] *)
Definition one_view : schemas.PasteCreate :=
  {| schemas.content := str_of_string "x";
     schemas.ttl_seconds := None;
     schemas.max_views := Some 1 |}.

(** Two later fetches in production. *)
Definition two_fetches : list (utils.environ * datetime * utils.Request) :=
  [ (production, t0 + 1000000, request);
    (production, t0 + 2000000, request) ].

Definition no_response : main.JSONResponse * gmap string models.Paste :=
  ({| main.content := main.error_json ""; main.status_code := 0 |}, ∅).

(** The wall clock of the test server: 2026-01-31T12:00:00Z. *)
Definition wall : datetime := 1769860800000000.

(** The creation of ["abc"] in production at [t0], a fetch of it a second
    later, and a page render another second later. *)
Definition creation : main.call :=
  {| main.call_env := production; main.call_clock := t0;
     main.call_request := request;
     main.call_route := main.POST_api_pastes "abc" body |}.

Definition fetch : main.call :=
  {| main.call_env := production; main.call_clock := t0 + 1000000;
     main.call_request := request;
     main.call_route := main.GET_api_pastes "abc" |}.

Definition render : main.call :=
  {| main.call_env := production; main.call_clock := t0 + 2000000;
     main.call_request := request;
     main.call_route := main.GET_p "abc" |}.

Definition history : list main.call := [creation; fetch; render].

(** [{"content": "  x ", "ttl_seconds": 1000000000000}]: white space around
    the content, and a time to live of some 31688 years. *)
Definition long_lived : schemas.PasteCreate :=
  {| schemas.content := str_of_string "  x ";
     schemas.ttl_seconds := Some 1000000000000;
     schemas.max_views := None |}.

(** [{"content": "  x "}], and the row that its creation at [t0] stores. *)
Definition plain : schemas.PasteCreate :=
  {| schemas.content := str_of_string "  x ";
     schemas.ttl_seconds := None;
     schemas.max_views := None |}.

Definition plain_paste : models.Paste :=
  {| models.id := "xyz";
     models.content := str_of_string "  x ";
     models.ttl_seconds := None;
     models.max_views := None;
     models.current_views := 0;
     models.created_at := t0;
     models.expires_at := None;
     models.is_active := true |}.

(** A header whose instant, 10^19 seconds, is beyond the range of
    [time_t]. *)
Definition beyond_time_t : string := "10000000000000000000000".

(** A generator that draws the bytes 200, 13, 77, 0, 255, 62, 63, 250 and
    then zeros. *)
Definition randbytes (n : nat) : list Byte.byte :=
  take n ([Byte.xc8; Byte.x0d; Byte.x4d; Byte.x00; Byte.xff; Byte.x3e;
           Byte.x3f; Byte.xfa] ++ replicate n Byte.x00).

End sample.

(** * Properties *)

(** ** The evaluator of [models.py] *)


Lemma is_view_limit_reached_spec (p : models.Paste) :
  models.is_view_limit_reached p = true ↔
  ∃ m, models.max_views p = Some m ∧ m ≤ models.current_views p.
Proof.
  unfold models.is_view_limit_reached.
  destruct (models.max_views p) as [m|]; simpl.
  - rewrite Z.leb_le. split; [eauto | intros (m' & [= <-] & ?); done].
  - split; [done | intros (m' & [=] & _)].
Qed.

Lemma fits_Integer_spec (n : Z) :
  models.fits_Integer n = true ↔ -2147483648 ≤ n ≤ 2147483647.
Proof.
  unfold models.fits_Integer, models.Integer_min, models.Integer_max.
  rewrite andb_true_iff, !Z.leb_le. done.
Qed.

Lemma is_available_spec clock (p : models.Paste) (now : datetime) :
  models.is_available clock p (Some now) =
  models.is_active p && negb (models.is_expired clock p (Some now)) &&
  negb (models.is_view_limit_reached p).
Proof.
  unfold models.is_available.
  destruct (models.is_active p), (models.is_expired clock p (Some now)),
    (models.is_view_limit_reached p); reflexivity.
Qed.

(** ** The handlers, case by case *)

Section handler_cases.
Context `{PyRuntime}.
Variables (env : utils.environ) (clock : datetime).
Variables (request : utils.Request) (now : datetime).
Hypothesis Hnow : utils.get_current_time env request clock = Ok now.

Lemma fetch_paste_missing paste_id (db : main.Session) :
  db !! paste_id = None →
  has_nul paste_id = false →
  main.fetch_paste env clock paste_id request db =
  ({| main.content := main.error_json "Paste not found";
      main.status_code := 404 |}, db).
Proof.
  intros Hdb Hnul. unfold main.fetch_paste, main.query_first.
  rewrite Hnow. simpl. by rewrite Hdb, Hnul.
Qed.

(** The query of an id with a NUL character is refused. *)
Lemma fetch_paste_refused paste_id (db : main.Session) :
  db !! paste_id = None →
  has_nul paste_id = true →
  main.fetch_paste env clock paste_id request db =
  ({| main.content := main.error_json "Internal server error";
      main.status_code := 500 |}, db).
Proof.
  intros Hdb Hnul. unfold main.fetch_paste, main.query_first.
  rewrite Hnow. simpl. by rewrite Hdb, Hnul.
Qed.

Lemma fetch_paste_unavailable paste_id (db : main.Session) p :
  db !! paste_id = Some p →
  models.is_available clock p (Some now) = false →
  main.fetch_paste env clock paste_id request db =
  ({| main.content :=
        main.error_json
          (if models.is_expired clock p (Some now) then "Paste has expired"
           else if models.is_view_limit_reached p then "View limit exceeded"
           else "Paste not available");
      main.status_code := 404 |},
   <[paste_id := models.set_is_active false p]> db).
Proof.
  intros Hdb Hav. unfold main.fetch_paste, main.query_first.
  rewrite Hnow. simpl. rewrite Hdb. simpl. rewrite Hav. reflexivity.
Qed.

Lemma fetch_paste_available paste_id (db : main.Session) p :
  db !! paste_id = Some p →
  models.is_available clock p (Some now) = true →
  models.fits_Integer (models.current_views p + 1) = true →
  main.fetch_paste env clock paste_id request db =
  ({| main.content :=
        main.fetch_json (models.content (main.viewed p))
          (models.get_remaining_views (main.viewed p))
          (utils.format_datetime_iso <$> models.expires_at (main.viewed p));
      main.status_code := 200 |},
   <[paste_id := main.viewed p]> db).
Proof.
  intros Hdb Hav Hfits. unfold main.fetch_paste, main.query_first.
  rewrite Hnow. simpl. rewrite Hdb. simpl. rewrite Hav. simpl.
  unfold main.commit_view, main.viewed.
  destruct (models.is_view_limit_reached _); simpl; by rewrite Hfits.
Qed.

(** The view that does not fit the [Integer] column is refused. *)
Lemma fetch_paste_full paste_id (db : main.Session) p :
  db !! paste_id = Some p →
  models.is_available clock p (Some now) = true →
  models.fits_Integer (models.current_views p + 1) = false →
  main.fetch_paste env clock paste_id request db =
  ({| main.content := main.error_json "Internal server error";
      main.status_code := 500 |}, db).
Proof.
  intros Hdb Hav Hfits. unfold main.fetch_paste, main.query_first.
  rewrite Hnow. simpl. rewrite Hdb. simpl. rewrite Hav. simpl.
  unfold main.commit_view.
  destruct (models.is_view_limit_reached _); simpl; by rewrite Hfits.
Qed.

End handler_cases.

(** ** What a call does to the table *)

Lemma same_frame_refl p : same_frame p p.
Proof. by repeat split. Qed.

Lemma evolves_refl p : evolves p p.
Proof. split; [apply same_frame_refl | split; [lia | done]]. Qed.

Lemma evolves_trans p q r : evolves p q → evolves q r → evolves p r.
Proof.
  intros ((?&?&?&?&?&?)&?&?) ((?&?&?&?&?&?)&?&?).
  repeat split; try congruence; [lia | auto].
Qed.

Lemma evolves_set_inactive p : evolves p (models.set_is_active false p).
Proof. split; [by repeat split | split; [simpl; lia | done]]. Qed.

Lemma viewed_current_views p :
  models.current_views (main.viewed p) = models.current_views p + 1.
Proof. unfold main.viewed. by case_match. Qed.

Lemma viewed_same_frame p : same_frame p (main.viewed p).
Proof. unfold main.viewed. case_match; by repeat split. Qed.

Lemma viewed_is_active p :
  models.is_active (main.viewed p) =
  models.is_active p &&
  negb (models.is_view_limit_reached
          (models.set_current_views (models.current_views p + 1) p)).
Proof.
  unfold main.viewed. case_match; simpl; [by rewrite andb_false_r|].
  by rewrite andb_true_r.
Qed.

Lemma evolves_viewed p : evolves p (main.viewed p).
Proof.
  split; [apply viewed_same_frame|]. rewrite viewed_current_views, viewed_is_active.
  split; [lia | by intros [? _]%andb_true_iff].
Qed.

Section table.
Context `{PyRuntime}.

(** A fetch leaves the table as it is, or rewrites the fetched row. *)
Lemma fetch_paste_table env clock paste_id request (db : main.Session) :
  let db' := snd (main.fetch_paste env clock paste_id request db) in
  db' = db ∨
  ∃ p now, utils.get_current_time env request clock = Ok now ∧
    db !! paste_id = Some p ∧
    (models.is_available clock p (Some now) = false ∧
       db' = <[paste_id := models.set_is_active false p]> db ∨
     models.is_available clock p (Some now) = true ∧
       db' = <[paste_id := main.viewed p]> db).
Proof.
  simpl. destruct (utils.get_current_time env request clock) as [now|e] eqn:Hnow.
  - destruct (db !! paste_id) as [p|] eqn:Hdb.
    + destruct (models.is_available clock p (Some now)) eqn:Hav.
      * destruct (models.fits_Integer (models.current_views p + 1)) eqn:Hfits.
        -- right. exists p, now. split_and!; [done..|]. right.
           by rewrite (fetch_paste_available _ _ _ _ Hnow _ _ _ Hdb Hav Hfits).
        -- left. by rewrite (fetch_paste_full _ _ _ _ Hnow _ _ _ Hdb Hav Hfits).
      * right. exists p, now. split_and!; [done..|]. left.
        by rewrite (fetch_paste_unavailable _ _ _ _ Hnow _ _ _ Hdb Hav).
    + left. destruct (has_nul paste_id) eqn:Hnul.
      * by rewrite (fetch_paste_refused _ _ _ _ Hnow _ _ Hdb Hnul).
      * by rewrite (fetch_paste_missing _ _ _ _ Hnow _ _ Hdb Hnul).
  - left. unfold main.fetch_paste. by rewrite Hnow.
Qed.

(** A page render leaves the table as it is, or switches the row off. *)
Lemma view_paste_table env clock paste_id request (db : main.Session) :
  let db' := snd (main.view_paste env clock paste_id request db) in
  db' = db ∨
  ∃ p now, utils.get_current_time env request clock = Ok now ∧
    db !! paste_id = Some p ∧
    models.is_available clock p (Some now) = false ∧
    db' = <[paste_id := models.set_is_active false p]> db.
Proof.
  simpl. unfold main.view_paste, main.query_first.
  destruct (utils.get_current_time env request clock) as [now|e]; simpl;
    [|by left].
  destruct (db !! paste_id) as [p|] eqn:Hdb; simpl;
    [|destruct (has_nul paste_id); by left].
  destruct (models.is_available clock p (Some now)) eqn:Hav; simpl;
    [by left|].
  right. by exists p, now.
Qed.

(** A creation leaves the table as it is, or adds a row under a new key. *)
Lemma post_api_pastes_table env clock token body request (db : main.Session) :
  let db' := snd (main.post_api_pastes env clock token body request db) in
  db' = db ∨
  ∃ p, db !! token = None ∧ db' = <[token := p]> db ∧ models.id p = token.
Proof.
  simpl. unfold main.post_api_pastes.
  destruct (schemas.validation_errors body); [|by left].
  unfold main.create_paste.
  destruct (utils.get_current_time env request clock) as [now|e]; simpl;
    [|destruct (is_ValueError e); by left].
  match goal with
  | |- context [mbind _ ?m] => destruct m as [e|e]; simpl
  end; [|destruct (is_ValueError e); by left].
  unfold main.add_commit; simpl.
  destruct (has_nul token || str_has_nul (schemas.content body)); simpl;
    [by left|].
  match goal with
  | |- context [negb ?b] => destruct b; simpl
  end; [|by left].
  destruct (db !! token) eqn:Hdb; simpl; [by left|].
  right. eexists. by split_and!.
Qed.

(** Every call takes every row to a later state of it. *)
Lemma serve_evolves (db : main.Session) c paste_id p :
  db !! paste_id = Some p →
  ∃ p', main.serve db c !! paste_id = Some p' ∧ evolves p p'.
Proof.
  intros Hdb. unfold main.serve. destruct (main.call_route c) as [token body|pid|pid].
  - destruct (post_api_pastes_table (main.call_env c) (main.call_clock c)
                token body (main.call_request c) db) as [->|(q & Hfree & -> & _)].
    + exists p. eauto using evolves_refl.
    + exists p. split; [|apply evolves_refl].
      rewrite lookup_insert_ne; [done | congruence].
  - destruct (fetch_paste_table (main.call_env c) (main.call_clock c) pid
                (main.call_request c) db)
      as [->|(q & now & _ & Hq & [[_ ->]|[_ ->]])].
    + exists p. eauto using evolves_refl.
    + destruct (decide (pid = paste_id)) as [->|Hne].
      * rewrite lookup_insert_eq. simplify_eq. eauto using evolves_set_inactive.
      * rewrite lookup_insert_ne by done. eauto using evolves_refl.
    + destruct (decide (pid = paste_id)) as [->|Hne].
      * rewrite lookup_insert_eq. simplify_eq. eauto using evolves_viewed.
      * rewrite lookup_insert_ne by done. eauto using evolves_refl.
  - destruct (view_paste_table (main.call_env c) (main.call_clock c) pid
                (main.call_request c) db) as [->|(q & now & _ & Hq & _ & ->)].
    + exists p. eauto using evolves_refl.
    + destruct (decide (pid = paste_id)) as [->|Hne].
      * rewrite lookup_insert_eq. simplify_eq. eauto using evolves_set_inactive.
      * rewrite lookup_insert_ne by done. eauto using evolves_refl.
Qed.

Lemma serve_all_evolves cs : ∀ (db : main.Session) paste_id p,
  db !! paste_id = Some p →
  ∃ p', main.serve_all db cs !! paste_id = Some p' ∧ evolves p p'.
Proof.
  induction cs as [|c cs IH]; intros db paste_id p Hdb; simpl.
  - eauto using evolves_refl.
  - destruct (serve_evolves db c _ _ Hdb) as (q & Hq & Hpq).
    destruct (IH _ _ _ Hq) as (r & Hr & Hqr).
    eauto using evolves_trans.
Qed.

End table.

(** ** C1: what a failed fetch answers *)

Section fetch_failure.
Context `{PyRuntime}.


End fetch_failure.



(** ** Creation *)

Lemma validation_errors_nil body :
  schemas.validation_errors body = [] →
  strip (schemas.content body) ≠ [] ∧
  (∀ T, schemas.ttl_seconds body = Some T → 1 ≤ T) ∧
  (∀ N, schemas.max_views body = Some N → 1 ≤ N).
Proof.
  unfold schemas.validation_errors, schemas.content_not_empty,
    schemas.ttl_positive, schemas.max_views_positive.
  destruct (schemas.content body) as [|c s] eqn:Hc; [done|]. simpl.
  destruct (strip (c :: s)) eqn:Hs; [done|]. simpl.
  destruct (schemas.ttl_seconds body) as [T|], (schemas.max_views body) as [N|];
    simpl; repeat case_match; try done; intros _;
    (split; [done|]); split; intros ? [= <-]; lia.
Qed.

Section creation.
Context `{PyRuntime}.

(** What [add_commit] lets through. *)
Lemma add_commit_Ok (new_paste : models.Paste) (db db' : main.Session) :
  main.add_commit new_paste db = Ok db' →
  has_nul (models.id new_paste) = false ∧
  str_has_nul (models.content new_paste) = false ∧
  models.fits_nullable_Integer (models.ttl_seconds new_paste) = true ∧
  models.fits_nullable_Integer (models.max_views new_paste) = true ∧
  db !! models.id new_paste = None ∧
  db' = <[models.id new_paste := new_paste]> db.
Proof.
  unfold main.add_commit.
  destruct (has_nul (models.id new_paste)) eqn:Hid; [done|].
  destruct (str_has_nul (models.content new_paste)) eqn:Hcontent; [done|].
  destruct (models.fits_nullable_Integer (models.ttl_seconds new_paste))
    eqn:Httl; [|done].
  destruct (models.fits_nullable_Integer (models.max_views new_paste))
    eqn:Hmax; [|done].
  destruct (models.fits_Integer (models.current_views new_paste)); [|done].
  simpl. destruct (db !! models.id new_paste) eqn:Hdb; [done|].
  by intros [= <-].
Qed.

(** A creation leaves the table as it is, or answers 200 and adds
    [new_paste] under a free key; the texts of the row hold no NUL character
    and its integers fit their columns. *)
Lemma post_api_pastes_effect env clock token body request (db : main.Session) :
  let r := main.post_api_pastes env clock token body request db in
  snd r = db ∧ main.status_code (fst r) ≠ 200 ∨
  ∃ created_at,
    utils.get_current_time env request clock = Ok created_at ∧
    schemas.validation_errors body = [] ∧
    db !! token = None ∧
    (∀ e, models.expires_at (new_paste token body created_at) = Some e →
          datetime_in_range e = true) ∧
    r = ({| main.content :=
              main.created_json token (utils.build_paste_url request token);
            main.status_code := 200 |},
         <[token := new_paste token body created_at]> db) ∧
    has_nul token = false ∧
    str_has_nul (schemas.content body) = false ∧
    models.fits_nullable_Integer (schemas.ttl_seconds body) = true ∧
    models.fits_nullable_Integer (schemas.max_views body) = true.
Proof.
  simpl. unfold main.post_api_pastes.
  destruct (schemas.validation_errors body) eqn:Hval; [|by left].
  destruct (validation_errors_nil _ Hval) as (_ & Httl & _).
  unfold main.create_paste.
  destruct (utils.get_current_time env request clock) as [now|e]; simpl;
    [|destruct (is_ValueError e); by left].
  unfold main.int_truthy, utils.calculate_expiry_time, datetime_add_seconds.
  destruct (schemas.ttl_seconds body) as [T|] eqn:HT; simpl.
  - specialize (Httl T eq_refl).
    destruct (T =? 0) eqn:HT0; [lia|]. simpl.
    destruct (datetime_in_range (now + T * 1000000)) eqn:Hrange; simpl;
      [|by left].
    match goal with
    | |- context [main.add_commit ?row db] =>
        destruct (main.add_commit row db) as [db'|e] eqn:Hadd; simpl;
        [|destruct (is_ValueError e); by left]
    end.
    apply add_commit_Ok in Hadd as (? & ? & ? & ? & ? & ->). simpl in *.
    right. exists now. unfold new_paste. rewrite HT. simpl.
    split_and!; try done. by intros e [= <-].
  - match goal with
    | |- context [main.add_commit ?row db] =>
        destruct (main.add_commit row db) as [db'|e] eqn:Hadd; simpl;
        [|destruct (is_ValueError e); by left]
    end.
    apply add_commit_Ok in Hadd as (? & ? & ? & ? & ? & ->). simpl in *.
    right. exists now. unfold new_paste. rewrite HT. simpl.
    split_and!; try done.
Qed.

(** A creation answered 200 passed the validation, had a reference time
    and a free key, and inserted [new_paste], whose texts hold no NUL
    character and whose integers fit their columns. *)
Lemma post_api_pastes_created env clock token body request
    (db0 db : main.Session) response :
  main.post_api_pastes env clock token body request db0 = (response, db) →
  main.status_code response = 200 →
  ∃ created_at,
    utils.get_current_time env request clock = Ok created_at ∧
    schemas.validation_errors body = [] ∧
    db0 !! token = None ∧
    db = <[token := new_paste token body created_at]> db0 ∧
    (∀ e, models.expires_at (new_paste token body created_at) = Some e →
          datetime_in_range e = true) ∧
    has_nul token = false ∧
    str_has_nul (schemas.content body) = false ∧
    models.fits_nullable_Integer (schemas.ttl_seconds body) = true ∧
    models.fits_nullable_Integer (schemas.max_views body) = true.
Proof.
  intros Hpost H200.
  destruct (post_api_pastes_effect env clock token body request db0)
    as [[_ Hstatus]|(created_at & ? & ? & ? & ? & Hr & ? & ? & ? & ?)].
  - by rewrite Hpost in Hstatus.
  - rewrite Hpost in Hr. injection Hr as -> ->. by exists created_at.
Qed.

End creation.

(** ** C2: a view limit of [N] grants exactly [N] fetches *)

Section view_limit.
Context `{PyRuntime}.

(** Successive fetches of a row without expiry, limited to [N] views, that
    has been viewed [c <= N] times and is on while [c < N]. *)
Lemma fetch_each_limited (N : Z) paste_id cs :
  ∀ (db : main.Session) p (k : nat) r,
    db !! paste_id = Some p →
    models.max_views p = Some N →
    models.expires_at p = None →
    0 ≤ models.current_views p ≤ N →
    N ≤ models.Integer_max →
    (models.current_views p < N → models.is_active p = true) →
    Forall has_reference_time cs →
    main.fetch_each paste_id cs db !! k = Some r →
    (models.current_views p + Z.of_nat k < N →
       fst r =
       {| main.content :=
            main.fetch_json (models.content p)
              (Some (N - (models.current_views p + Z.of_nat k) - 1)) None;
          main.status_code := 200 |}) ∧
    (N ≤ models.current_views p + Z.of_nat k →
       fst r = {| main.content := main.error_json "View limit exceeded";
                  main.status_code := 404 |}) ∧
    ∃ p', snd r !! paste_id = Some p' ∧
      models.current_views p' =
      Z.min (models.current_views p + Z.of_nat k + 1) N.
Proof.
  induction cs as [|[[env clock] request] cs IH];
    intros db p k r Hdb Hmax Hexp Hc HN Hact Hcs Hk; [done|].
  apply Forall_cons in Hcs as [[now Hnow] Hcs]. simpl in Hnow.
  assert (Hav : models.is_available clock p (Some now) =
                (models.current_views p <? N)).
  { rewrite is_available_spec. unfold models.is_expired,
      models.is_view_limit_reached. rewrite Hexp, Hmax. simpl.
    destruct (Z.ltb_spec (models.current_views p) N) as [Hlt|Hge].
    - rewrite (Hact Hlt). simpl. apply negb_true_iff, Z.leb_gt. lia.
    - rewrite andb_true_r. apply andb_false_iff. right.
      apply negb_false_iff, Z.leb_le. lia. }
  simpl in Hk.
  destruct (Z.ltb_spec (models.current_views p) N) as [Hlt|Hge].
  - (* the fetch is granted *)
    assert (models.fits_Integer (models.current_views p + 1) = true) as Hfits
      by (apply fits_Integer_spec; unfold models.Integer_max in HN; lia).
    rewrite (fetch_paste_available _ _ _ _ Hnow _ _ _ Hdb Hav Hfits) in Hk.
    pose proof (viewed_same_frame p) as (_ & Hcontent & _ & Hmax' & _ & Hexp').
    pose proof (viewed_current_views p) as Hviews.
    destruct k as [|k]; simpl in Hk.
    + injection Hk as <-. simpl. split_and!.
      * intros _. unfold models.get_remaining_views.
        rewrite Hcontent, Hexp', Hexp, Hmax', Hmax, Hviews. simpl.
        do 3 f_equal. lia.
      * lia.
      * exists (main.viewed p). rewrite lookup_insert_eq. split; [done|lia].
    + edestruct (IH (<[paste_id := main.viewed p]> db) (main.viewed p) k r)
        as (Hok & Hko & p' & Hp' & Hviews'); try done.
      * apply lookup_insert_eq.
      * congruence.
      * congruence.
      * lia.
      * rewrite viewed_is_active, Hviews. intros Hlt'.
        rewrite (Hact Hlt). simpl. unfold models.is_view_limit_reached.
        simpl. rewrite Hmax. apply negb_true_iff, Z.leb_gt. lia.
      * rewrite Hviews, Hcontent in *. split_and!.
        -- intros ?. rewrite Hok by lia. do 3 f_equal. lia.
        -- intros ?. apply Hko. lia.
        -- exists p'. split; [done|lia].
  - (* the limit is reached *)
    rewrite (fetch_paste_unavailable _ _ _ _ Hnow _ _ _ Hdb Hav) in Hk.
    assert (models.is_expired clock p (Some now) = false) as Hnever
      by (unfold models.is_expired; by rewrite Hexp).
    assert (models.is_view_limit_reached p = true) as Hspent
      by (apply is_view_limit_reached_spec; exists N; split; [done|lia]).
    rewrite Hnever, Hspent in Hk.
    destruct k as [|k]; simpl in Hk.
    + injection Hk as <-. simpl. split_and!; [lia|done|].
      exists (models.set_is_active false p). rewrite lookup_insert_eq.
      split; [done|simpl; lia].
    + edestruct (IH (<[paste_id := models.set_is_active false p]> db)
                   (models.set_is_active false p) k r)
        as (Hok & Hko & p' & Hp' & Hviews'); try done.
      * apply lookup_insert_eq.
      * simpl. lia.
      * simpl in *. split_and!; [lia| intros _; apply Hko; lia|].
        exists p'. split; [done|lia].
Qed.

(** C2. A paste created with [max_views = N], [N >= 1], and no
    [ttl_seconds] is then fetched again and again, each time at some
    reference time. The fetch number [k] (from 0) answers 200 with the
    content and [remaining_views = N - k - 1] when [k < N], so the fetch
    that raises [current_views] to [N] is still served; it answers 404, with
    the body "View limit exceeded", when [N <= k]; and after it
    [current_views] is [min (k + 1) N], never more than [N]. *)
Theorem view_limit_grants_exactly_N (N : Z) env clock token body request
    (db0 db : main.Session) response cs (k : nat) r :
  1 ≤ N →
  schemas.max_views body = Some N →
  schemas.ttl_seconds body = None →
  main.post_api_pastes env clock token body request db0 = (response, db) →
  main.status_code response = 200 →
  Forall has_reference_time cs →
  main.fetch_each token cs db !! k = Some r →
  (Z.of_nat k < N →
     fst r =
     {| main.content :=
          main.fetch_json (schemas.content body)
            (Some (N - Z.of_nat k - 1)) None;
        main.status_code := 200 |}) ∧
  (N ≤ Z.of_nat k →
     fst r = {| main.content := main.error_json "View limit exceeded";
                main.status_code := 404 |}) ∧
  ∃ p, snd r !! token = Some p ∧
    models.current_views p = Z.min (Z.of_nat k + 1) N ∧
    models.current_views p ≤ N.
Proof.
  intros HN Hmax Httl Hpost H200 Hcs Hk.
  destruct (post_api_pastes_created _ _ _ _ _ _ _ _ Hpost H200)
    as (created_at & _ & _ & _ & -> & _ & _ & _ & _ & Hfits).
  rewrite Hmax in Hfits. apply fits_Integer_spec in Hfits.
  destruct (fetch_each_limited N token cs
              (<[token := new_paste token body created_at]> db0)
              (new_paste token body created_at) k r)
    as (Hok & Hko & p & Hp & Hviews).
  { apply lookup_insert_eq. }
  { done. }
  { unfold new_paste. simpl. by rewrite Httl. }
  { simpl. lia. }
  { unfold models.Integer_max. lia. }
  { done. }
  { done. }
  { done. }
  simpl in *. split_and!.
  - intros ?. rewrite Hok by lia. do 3 f_equal; lia.
  - intros ?. apply Hko. lia.
  - exists p. split_and!; [done|lia..].
Qed.

End view_limit.

(** The scenario of one allowed view: the second fetch of a paste created
    with [max_views = 1] is answered 404 and the count stays at 1. *)
Lemma view_limit_grants_exactly_N_witness :
  let created :=
    main.post_api_pastes sample.production sample.t0 "abc" sample.one_view
      sample.request ∅ in
  let r :=
    nth 1 (main.fetch_each "abc" sample.two_fetches (snd created))
      sample.no_response in
  (Z.of_nat 1 < 1 →
     fst r =
     {| main.content :=
          main.fetch_json (schemas.content sample.one_view)
            (Some (1 - Z.of_nat 1 - 1)) None;
        main.status_code := 200 |}) ∧
  (1 ≤ Z.of_nat 1 →
     fst r = {| main.content := main.error_json "View limit exceeded";
                main.status_code := 404 |}) ∧
  ∃ p, snd r !! "abc" = Some p ∧
    models.current_views p = Z.min (Z.of_nat 1 + 1) 1 ∧
    models.current_views p ≤ 1.
Proof.
  apply (view_limit_grants_exactly_N 1 sample.production sample.t0 "abc"
           sample.one_view sample.request ∅
           (snd (main.post_api_pastes sample.production sample.t0 "abc"
                   sample.one_view sample.request ∅))
           (fst (main.post_api_pastes sample.production sample.t0 "abc"
                   sample.one_view sample.request ∅))
           sample.two_fetches 1).
  - lia.
  - reflexivity.
  - reflexivity.
  - vm_compute. reflexivity.
  - vm_compute. reflexivity.
  - repeat constructor; eexists; vm_compute; reflexivity.
  - vm_compute. reflexivity.
Defined.

(** ** C3: expiry is inclusive at the boundary *)

Section expiry.
Context `{PyRuntime}.






End expiry.



(** ** C4: [is_active] is one-way *)

Section one_way.
Context `{PyRuntime}.

Lemma observed_unavailable_off (db0 db : main.Session) paste_id p0 :
  db0 !! paste_id = Some p0 →
  observed_unavailable db0 paste_id db →
  ∃ p, db !! paste_id = Some p ∧ models.is_active p = false.
Proof.
  intros Hdb0 (env & clock & request & [[H404 ->]|[H404 ->]]); revert H404.
  - destruct (utils.get_current_time env request clock) as [now|e] eqn:Hnow;
      [|unfold main.fetch_paste; by rewrite Hnow].
    destruct (models.is_available clock p0 (Some now)) eqn:Hav.
    + destruct (models.fits_Integer (models.current_views p0 + 1)) eqn:Hfits.
      * by rewrite (fetch_paste_available _ _ _ _ Hnow _ _ _ Hdb0 Hav Hfits).
      * by rewrite (fetch_paste_full _ _ _ _ Hnow _ _ _ Hdb0 Hav Hfits).
    + rewrite (fetch_paste_unavailable _ _ _ _ Hnow _ _ _ Hdb0 Hav). simpl.
      intros _. eexists. by rewrite lookup_insert_eq.
  - unfold main.view_paste, main.query_first.
    destruct (utils.get_current_time env request clock) as [now|e]; simpl;
      [|done].
    rewrite Hdb0. simpl.
    destruct (models.is_available clock p0 (Some now)); simpl; [done|].
    intros _. eexists. by rewrite lookup_insert_eq.
Qed.

Lemma fetch_paste_off env clock request now paste_id (db : main.Session) p :
  utils.get_current_time env request clock = Ok now →
  db !! paste_id = Some p →
  models.is_active p = false →
  main.status_code (fst (main.fetch_paste env clock paste_id request db))
  = 404.
Proof.
  intros Hnow Hdb Hoff.
  assert (models.is_available clock p (Some now) = false) as Hav
    by (by rewrite is_available_spec, Hoff).
  by rewrite (fetch_paste_unavailable _ _ _ _ Hnow _ _ _ Hdb Hav).
Qed.

(** C4. A row is off, or has just been found unavailable by a fetch or a
    page render answered 404. Then after any sequence of creations, fetches
    and page renders the row is still there and still off, and a fetch at
    any reference time whatever is answered 404. *)
Theorem is_active_is_one_way (db0 db : main.Session) paste_id p0 cs
    env clock request now :
  db0 !! paste_id = Some p0 →
  models.is_active p0 = false ∧ db = db0 ∨
    observed_unavailable db0 paste_id db →
  utils.get_current_time env request clock = Ok now →
  (∃ p, main.serve_all db cs !! paste_id = Some p ∧
        models.is_active p = false) ∧
  main.status_code
    (fst (main.fetch_paste env clock paste_id request
            (main.serve_all db cs))) = 404.
Proof.
  intros Hdb0 Hoff Hnow.
  assert (∃ p, db !! paste_id = Some p ∧ models.is_active p = false)
    as (p & Hdb & Hp).
  { destruct Hoff as [[? ->]|Hobs]; [eauto|].
    eapply observed_unavailable_off; eauto. }
  destruct (serve_all_evolves cs db paste_id p Hdb)
    as (p' & Hp' & _ & _ & Hon).
  assert (models.is_active p' = false) as Hoff'.
  { destruct (models.is_active p'); [|done]. rewrite Hon in Hp; done. }
  split; [eauto|]. by eapply fetch_paste_off.
Qed.

End one_way.

(** In test mode the paste of [sample.db] is rendered as a page one minute
    after its creation, which finds it expired; fetched then at the time of
    its creation, it is answered 404. *)
Lemma is_active_is_one_way_witness :
  let db :=
    snd (main.view_paste sample.test_mode sample.wall "abc"
           (sample.request_at "1704067260000") sample.db) in
  (∃ p, main.serve_all db [] !! "abc" = Some p ∧
        models.is_active p = false) ∧
  main.status_code
    (fst (main.fetch_paste sample.test_mode sample.wall "abc"
            (sample.request_at "1704067200000") (main.serve_all db []))) = 404.
Proof.
  apply (is_active_is_one_way sample.db _ "abc" sample.paste []
           sample.test_mode sample.wall (sample.request_at "1704067200000")
           sample.t0).
  - reflexivity.
  - right. exists sample.test_mode, sample.wall,
      (sample.request_at "1704067260000"). right. split; reflexivity.
  - vm_compute. reflexivity.
Defined.

(** ** C5: the remaining views *)

Lemma get_remaining_views_spec (p : models.Paste) :
  (models.get_remaining_views p = None ↔ models.max_views p = None) ∧
  (∀ m, models.max_views p = Some m →
        models.get_remaining_views p
        = Some (Z.max 0 (m - models.current_views p))).
Proof.
  unfold models.get_remaining_views.
  destruct (models.max_views p) as [m|]; split; try done.
  by intros ? [= <-].
Qed.

Section remaining_views.
Context `{PyRuntime}.

(** A fetch answered 200 found the row available and committed
    [main.viewed] of it. *)
Lemma fetch_paste_200_inv env clock paste_id request (db db' : main.Session)
    response :
  main.fetch_paste env clock paste_id request db = (response, db') →
  main.status_code response = 200 →
  ∃ p now,
    utils.get_current_time env request clock = Ok now ∧
    db !! paste_id = Some p ∧
    models.is_available clock p (Some now) = true ∧
    response =
      {| main.content :=
           main.fetch_json (models.content (main.viewed p))
             (models.get_remaining_views (main.viewed p))
             (utils.format_datetime_iso <$>
                models.expires_at (main.viewed p));
         main.status_code := 200 |} ∧
    db' = <[paste_id := main.viewed p]> db.
Proof.
  destruct (utils.get_current_time env request clock) as [now|e] eqn:Hnow.
  - destruct (db !! paste_id) as [p|] eqn:Hdb.
    + destruct (models.is_available clock p (Some now)) eqn:Hav.
      * destruct (models.fits_Integer (models.current_views p + 1)) eqn:Hfits.
        -- rewrite (fetch_paste_available _ _ _ _ Hnow _ _ _ Hdb Hav Hfits).
           intros [= <- <-] _. by exists p, now.
        -- rewrite (fetch_paste_full _ _ _ _ Hnow _ _ _ Hdb Hav Hfits).
           by intros [= <- <-].
      * rewrite (fetch_paste_unavailable _ _ _ _ Hnow _ _ _ Hdb Hav).
        by intros [= <- <-].
    + destruct (has_nul paste_id) eqn:Hnul.
      * rewrite (fetch_paste_refused _ _ _ _ Hnow _ _ Hdb Hnul).
        by intros [= <- <-].
      * rewrite (fetch_paste_missing _ _ _ _ Hnow _ _ Hdb Hnul).
        by intros [= <- <-].
  - unfold main.fetch_paste. rewrite Hnow. by intros [= <- <-].
Qed.

(** A call that is not a fetch of [paste_id] keeps its row but for
    [is_active]. *)
Lemma serve_other_keeps_views (db : main.Session) c paste_id p :
  main.call_route c ≠ main.GET_api_pastes paste_id →
  db !! paste_id = Some p →
  ∃ p', main.serve db c !! paste_id = Some p' ∧ same_frame p p' ∧
        models.current_views p' = models.current_views p.
Proof.
  intros Hroute Hdb. unfold main.serve.
  destruct (main.call_route c) as [token body|pid|pid].
  - destruct (post_api_pastes_table (main.call_env c) (main.call_clock c)
                token body (main.call_request c) db) as [->|(q & Hfree & -> & _)].
    + exists p. eauto using same_frame_refl.
    + exists p. rewrite lookup_insert_ne by congruence.
      eauto using same_frame_refl.
  - assert (pid ≠ paste_id) as Hne by congruence.
    destruct (fetch_paste_table (main.call_env c) (main.call_clock c) pid
                (main.call_request c) db)
      as [->|(q & now & _ & Hq & [[_ ->]|[_ ->]])];
      [|rewrite lookup_insert_ne by done..]; eauto using same_frame_refl.
  - destruct (view_paste_table (main.call_env c) (main.call_clock c) pid
                (main.call_request c) db) as [->|(q & now & _ & Hq & _ & ->)].
    + exists p. eauto using same_frame_refl.
    + destruct (decide (pid = paste_id)) as [->|Hne].
      * rewrite lookup_insert_eq. simplify_eq. eexists.
        split; [done|]. split; [by repeat split|done].
      * rewrite lookup_insert_ne by done. eauto using same_frame_refl.
Qed.

Lemma serve_all_other_keeps_views cs : ∀ (db : main.Session) paste_id p,
  Forall (λ c, main.call_route c ≠ main.GET_api_pastes paste_id) cs →
  db !! paste_id = Some p →
  ∃ p', main.serve_all db cs !! paste_id = Some p' ∧ same_frame p p' ∧
        models.current_views p' = models.current_views p.
Proof.
  induction cs as [|c cs IH]; intros db paste_id p Hcs Hdb; simpl.
  - eauto using same_frame_refl.
  - apply Forall_cons in Hcs as [Hc Hcs].
    destruct (serve_other_keeps_views db c _ _ Hc Hdb)
      as (q & Hq & (?&?&?&?&?&?) & ?).
    destruct (IH _ _ _ Hcs Hq) as (r & Hr & (?&?&?&?&?&?) & ?).
    exists r. split; [done|]. split; [repeat split|]; congruence.
Qed.

(** C5. [get_remaining_views] is absent exactly when [max_views] is, and is
    otherwise [max(0, max_views - current_views)]. Of two successful fetches
    of a paste with no other fetch of it in between, the first returns an
    absent [remaining_views] exactly when the paste has no [max_views], and
    then so does the second; when the first returns [n], the second returns
    [n - 1], which is not negative. *)
Theorem remaining_views_counts_down (p : models.Paste)
    env1 clock1 request1 env2 clock2 request2 paste_id
    (db db1 db2 : main.Session) cs content1 rv1 e1 content2 rv2 e2 :
  (models.get_remaining_views p = None ↔ models.max_views p = None) ∧
  (∀ m, models.max_views p = Some m →
        models.get_remaining_views p
        = Some (Z.max 0 (m - models.current_views p))) ∧
  (main.fetch_paste env1 clock1 paste_id request1 db =
     ({| main.content := main.fetch_json content1 rv1 e1;
         main.status_code := 200 |}, db1) →
   Forall (λ c, main.call_route c ≠ main.GET_api_pastes paste_id) cs →
   main.fetch_paste env2 clock2 paste_id request2 (main.serve_all db1 cs) =
     ({| main.content := main.fetch_json content2 rv2 e2;
         main.status_code := 200 |}, db2) →
   (∃ q, db !! paste_id = Some q ∧
         (rv1 = None ↔ models.max_views q = None)) ∧
   (rv1 = None → rv2 = None) ∧
   (∀ n, rv1 = Some n → rv2 = Some (n - 1) ∧ 0 ≤ n - 1)).
Proof.
  destruct (get_remaining_views_spec p) as [Hnone Hsome].
  split; [done|]. split; [done|]. intros Hf1 Hcs Hf2.
  destruct (fetch_paste_200_inv _ _ _ _ _ _ _ Hf1 eq_refl)
    as (q & now1 & _ & Hq & Hav1 & [= _ -> _] & ->).
  destruct (serve_all_other_keeps_views cs
              (<[paste_id := main.viewed q]> db) paste_id (main.viewed q) Hcs)
    as (q' & Hq' & (_ & _ & _ & Hmax' & _ & _) & Hviews');
    [apply lookup_insert_eq|].
  destruct (fetch_paste_200_inv _ _ _ _ _ _ _ Hf2 eq_refl)
    as (q'' & now2 & _ & Hq'' & Hav2 & [= _ -> _] & _).
  assert (q'' = q') as -> by congruence.
  pose proof (viewed_same_frame q) as (_ & _ & _ & Hmaxq & _ & _).
  pose proof (viewed_same_frame q') as (_ & _ & _ & Hmaxq' & _ & _).
  pose proof (viewed_current_views q) as Hvq.
  pose proof (viewed_current_views q') as Hvq'.
  rewrite is_available_spec in Hav1, Hav2.
  apply andb_true_iff in Hav1 as [_ Hlim1%negb_true_iff].
  apply andb_true_iff in Hav2 as [_ Hlim2%negb_true_iff].
  unfold models.is_view_limit_reached in Hlim1, Hlim2.
  unfold models.get_remaining_views.
  rewrite Hmaxq', Hmax', Hmaxq in *.
  destruct (models.max_views q) as [m|] eqn:Hm.
  - apply Z.leb_gt in Hlim1, Hlim2. split_and!.
    + exists q. rewrite Hm. split; [done|]. split; done.
    + done.
    + intros n [= <-]. split; [f_equal|]; lia.
  - split_and!; [|done|done]. exists q. by rewrite Hm.
Qed.

End remaining_views.

(** The paste of [sample.db], limited to two views, fetched twice with a
    page render in between: the fetches return 1 and then 0. *)
Lemma remaining_views_counts_down_witness :
  let r1 :=
    main.fetch_paste sample.production sample.t0 "abc" sample.request
      sample.db in
  let page :=
    {| main.call_env := sample.production; main.call_clock := sample.t0;
       main.call_request := sample.request;
       main.call_route := main.GET_p "abc" |} in
  let r2 :=
    main.fetch_paste sample.production sample.t0 "abc" sample.request
      (main.serve_all (snd r1) [page]) in
  main.content (fst r1) =
    main.fetch_json (str_of_string "Hello, World!") (Some 1)
      (Some "2024-01-01T00:01:00.000Z") ∧
  main.content (fst r2) =
    main.fetch_json (str_of_string "Hello, World!") (Some (1 - 1))
      (Some "2024-01-01T00:01:00.000Z") ∧
  0 ≤ 1 - 1.
Proof.
  intros r1 page r2.
  split; [vm_compute; reflexivity|].
  split; [vm_compute; reflexivity|].
  refine (proj2 (proj2 (proj2 (proj2 (proj2
    (remaining_views_counts_down sample.paste
       sample.production sample.t0 sample.request
       sample.production sample.t0 sample.request "abc"
       sample.db (snd r1) (snd r2) [page]
       (str_of_string "Hello, World!") (Some 1)
       (Some "2024-01-01T00:01:00.000Z")
       (str_of_string "Hello, World!") (Some 0)
       (Some "2024-01-01T00:01:00.000Z"))) _ _ _)) 1 eq_refl)).
  - vm_compute. reflexivity.
  - repeat constructor. discriminate.
  - vm_compute. reflexivity.
Defined.

(** ** C7: the clock of a request *)

Section clock.
Context `{PyRuntime}.



End clock.



(** ** C8: a body that fails the validation *)

Lemma lstrip_nil s : lstrip s = [] ↔ Forall (λ c, isspace c = true) s.
Proof.
  induction s as [|c s IH]; simpl; [by split|].
  destruct (isspace c) eqn:Hc.
  - rewrite IH. split; [by constructor|by intros [_ ?]%Forall_cons].
  - split; [done|]. intros [? _]%Forall_cons. congruence.
Qed.

Lemma lstrip_all_space s :
  Forall (λ c, isspace c = true) (lstrip s) ↔ Forall (λ c, isspace c = true) s.
Proof.
  induction s as [|c s IH]; simpl; [done|].
  destruct (isspace c) eqn:Hc; [|done].
  rewrite IH. split; [by constructor|by intros [_ ?]%Forall_cons].
Qed.

(** The content is empty after trimming exactly when it is empty or made of
    white space only. *)
Lemma strip_nil s : strip s = [] ↔ Forall (λ c, isspace c = true) s.
Proof.
  unfold strip, rstrip.
  rewrite <- lstrip_all_space, <- (Forall_reverse _ (lstrip s)), <- lstrip_nil.
  split; [|by intros ->].
  intros Hrev. apply (f_equal reverse) in Hrev.
  by rewrite reverse_involutive in Hrev.
Qed.

Lemma validation_errors_cons body :
  strip (schemas.content body) = [] ∨
  (∃ T, schemas.ttl_seconds body = Some T ∧ T < 1) ∨
  (∃ N, schemas.max_views body = Some N ∧ N < 1) →
  schemas.validation_errors body ≠ [].
Proof.
  intros Hbad Hnil. destruct (validation_errors_nil _ Hnil) as (Hc & HT & HN).
  destruct Hbad as [?|[(T & HeqT & ?)|(N & HeqN & ?)]]; [done|..].
  - specialize (HT T HeqT). lia.
  - specialize (HN N HeqN). lia.
Qed.

Section validation.
Context `{PyRuntime}.

(** C8 on the code. A body whose content is empty or blank, or whose
    [ttl_seconds] or [max_views] is below 1, stores nothing; it is answered
    422 with the list of errors, not 400: the handler that answers 400 is
    registered under the status code 422 and is not the one that serves a
    validation error. *)
Theorem invalid_body_is_answered_422 env clock token body request
    (db : main.Session) :
  strip (schemas.content body) = [] ∨
  (∃ T, schemas.ttl_seconds body = Some T ∧ T < 1) ∨
  (∃ N, schemas.max_views body = Some N ∧ N < 1) →
  main.post_api_pastes env clock token body request db =
  ({| main.content := main.detail_json (schemas.validation_errors body);
      main.status_code := 422 |}, db).
Proof.
  intros Hbad%validation_errors_cons. unfold main.post_api_pastes.
  by destruct (schemas.validation_errors body).
Qed.

End validation.

(** [{"content": "   "}] is answered 422. *)
Lemma invalid_body_is_answered_422_witness :
  main.post_api_pastes sample.production sample.wall "abc"
    {| schemas.content := str_of_string "   ";
       schemas.ttl_seconds := None; schemas.max_views := None |}
    sample.request ∅ =
  ({| main.content :=
        main.detail_json [("content", "content must be a non-empty string")];
      main.status_code := 422 |}, ∅).
Proof.
  refine (invalid_body_is_answered_422 sample.production sample.wall "abc"
            {| schemas.content := str_of_string "   ";
               schemas.ttl_seconds := None; schemas.max_views := None |}
            sample.request ∅ _).
  left. vm_compute. reflexivity.
Defined.

(** ** C9: a page render is not a view *)

Section page.
Context `{PyRuntime}.

(** C9. Whatever the table, the request and the clock, [view_paste] leaves
    [current_views] of every row as it was, and removes or adds no row,
    whether it answers 200, 404 or 500. *)
Theorem view_paste_keeps_current_views env clock paste_id request
    (db : main.Session) (paste_id' : string) :
  models.current_views <$>
    snd (main.view_paste env clock paste_id request db) !! paste_id' =
  models.current_views <$> db !! paste_id'.
Proof.
  destruct (view_paste_table env clock paste_id request db)
    as [->|(p & now & _ & Hp & _ & ->)]; [done|].
  destruct (decide (paste_id = paste_id')) as [->|Hne].
  - by rewrite lookup_insert_eq, Hp.
  - by rewrite lookup_insert_ne.
Qed.

End page.

(** ** C10: the frame of a fetch *)

Section frame.
Context `{PyRuntime}.

(** C10. A fetch of an existing paste rewrites at most its row, and in it
    at most [current_views] and [is_active]. Answered 200, it adds exactly
    one view to a row that was on, which may go off. Answered 404, it keeps
    [current_views] and leaves the row off. Otherwise the row is as it
    was. Every other row is untouched. *)
Theorem fetch_paste_frame env clock paste_id request (db : main.Session) p :
  db !! paste_id = Some p →
  let r := main.fetch_paste env clock paste_id request db in
  ∃ p',
    snd r = <[paste_id := p']> db ∧
    same_frame p p' ∧
    (main.status_code (fst r) = 200 →
       models.current_views p' = models.current_views p + 1 ∧
       models.is_active p = true) ∧
    (main.status_code (fst r) = 404 →
       models.current_views p' = models.current_views p ∧
       models.is_active p' = false) ∧
    (main.status_code (fst r) ≠ 200 → main.status_code (fst r) ≠ 404 →
       p' = p) ∧
    (∀ paste_id', paste_id' ≠ paste_id →
       snd r !! paste_id' = db !! paste_id').
Proof.
  intros Hdb. simpl.
  destruct (utils.get_current_time env request clock) as [now|e] eqn:Hnow.
  - destruct (models.is_available clock p (Some now)) eqn:Hav.
    + destruct (models.fits_Integer (models.current_views p + 1)) eqn:Hfits.
      * rewrite (fetch_paste_available _ _ _ _ Hnow _ _ _ Hdb Hav Hfits).
        simpl. exists (main.viewed p). split_and!; try done.
        -- apply viewed_same_frame.
        -- intros _. split; [apply viewed_current_views|].
           rewrite is_available_spec in Hav.
           by apply andb_true_iff in Hav as [[? _]%andb_true_iff _].
        -- intros ? ?. by rewrite lookup_insert_ne.
      * rewrite (fetch_paste_full _ _ _ _ Hnow _ _ _ Hdb Hav Hfits). simpl.
        exists p. split_and!;
          first [done | by rewrite insert_id | apply same_frame_refl].
    + rewrite (fetch_paste_unavailable _ _ _ _ Hnow _ _ _ Hdb Hav). simpl.
      exists (models.set_is_active false p). split_and!; try done.
      intros ? ?. by rewrite lookup_insert_ne.
  - unfold main.fetch_paste. rewrite Hnow. simpl.
    exists p. split_and!;
      first [done | by rewrite insert_id | apply same_frame_refl].
Qed.

End frame.

(** The first fetch of the paste of [sample.db]: one view more, the rest of
    the row as it was. *)
Lemma fetch_paste_frame_witness :
  ∃ p',
    snd (main.fetch_paste sample.production sample.t0 "abc" sample.request
           sample.db) = <[ "abc" := p' ]> sample.db ∧
    same_frame sample.paste p' ∧
    models.current_views p' = models.current_views sample.paste + 1.
Proof.
  destruct (fetch_paste_frame sample.production sample.t0 "abc"
              sample.request sample.db sample.paste eq_refl)
    as (p' & Hdb & Hframe & H200 & _).
  exists p'. split; [exact Hdb|]. split; [exact Hframe|].
  apply H200. reflexivity.
Defined.

(** ** C6: [expires_at] and its serialisation *)

Lemma civil_from_days_bounds days :
  -719162 ≤ days ≤ 2932896 →
  let '(y, m, d) := civil_from_days days in
  1 ≤ y ≤ 9999 ∧ 1 ≤ m ≤ 12 ∧ 1 ≤ d ≤ 31.
Proof.
  intros Hd. unfold civil_from_days.
  set (z := days + 719468).
  set (era := z / 146097).
  set (doe := z - era * 146097).
  set (yoe := (doe - doe / 1460 + doe / 36524 - doe / 146096) / 365).
  set (doy := doe - (365 * yoe + yoe / 4 - yoe / 100)).
  set (mp := (5 * doy + 2) / 153).
  assert (0 ≤ doe ≤ 146096) by (subst doe era z; Z.div_mod_to_equations; lia).
  assert (0 ≤ era ≤ 24) by (subst era z; Z.div_mod_to_equations; lia).
  assert (0 ≤ yoe ≤ 399) by (subst yoe; Z.div_mod_to_equations; lia).
  assert (0 ≤ doy ≤ 365) by (subst doy yoe; Z.div_mod_to_equations; lia).
  assert (0 ≤ mp ≤ 11) by (subst mp; Z.div_mod_to_equations; lia).
  destruct (Z.ltb_spec mp 10) as [Hlt|Hge].
  - destruct (Z.leb_spec (mp + 3) 2); [lia|].
    split; [|split]; [|lia|].
    + subst mp doy yoe doe era z. Z.div_mod_to_equations. lia.
    + subst mp. Z.div_mod_to_equations. lia.
  - destruct (Z.leb_spec (mp - 9) 2); [|lia].
    split; [|split]; [|lia|].
    + subst mp doy yoe doe era z. Z.div_mod_to_equations. lia.
    + subst mp. Z.div_mod_to_equations. lia.
Qed.

Lemma days_from_civil_from_days days :
  -719162 ≤ days ≤ 2932896 →
  let '(y, m, d) := civil_from_days days in days_from_civil y m d = days.
Proof.
  intros Hd. unfold civil_from_days, days_from_civil.
  set (z := days + 719468).
  set (era := z / 146097).
  set (doe := z - era * 146097).
  set (yoe := (doe - doe / 1460 + doe / 36524 - doe / 146096) / 365).
  set (doy := doe - (365 * yoe + yoe / 4 - yoe / 100)).
  set (mp := (5 * doy + 2) / 153).
  assert (0 ≤ doe ≤ 146096) by (subst doe era z; Z.div_mod_to_equations; lia).
  assert (0 ≤ era ≤ 24) by (subst era z; Z.div_mod_to_equations; lia).
  assert (0 ≤ yoe ≤ 399) by (subst yoe; Z.div_mod_to_equations; lia).
  assert (0 ≤ doy ≤ 365) by (subst doy yoe; Z.div_mod_to_equations; lia).
  assert (0 ≤ mp ≤ 11) by (subst mp; Z.div_mod_to_equations; lia).
  destruct (Z.ltb_spec mp 10) as [Hlt|Hge].
  - destruct (Z.leb_spec (mp + 3) 2); [lia|].
    destruct (Z.ltb_spec 2 (mp + 3)); [|lia].
    replace (mp + 3 - 3) with mp by lia.
    replace ((yoe + era * 400 + 0) / 400) with era
      by (Z.div_mod_to_equations; lia).
    replace (yoe + era * 400 + 0 - era * 400) with yoe by lia.
    subst doy doe z. generalize (yoe / 4) (yoe / 100) ((153 * mp + 2) / 5).
    intros. lia.
  - destruct (Z.leb_spec (mp - 9) 2); [|lia].
    destruct (Z.ltb_spec 2 (mp - 9)); [lia|].
    replace (mp - 9 + 9) with mp by lia.
    replace ((yoe + era * 400 + 1 - 1) / 400) with era
      by (Z.div_mod_to_equations; lia).
    replace (yoe + era * 400 + 1 - 1 - era * 400) with yoe by lia.
    subst doy doe z. generalize (yoe / 4) (yoe / 100) ((153 * mp + 2) / 5).
    intros. lia.
Qed.

Lemma digit_to_ascii_ok d :
  0 ≤ d < 10 →
  is_digit (digit_to_ascii d) = true ∧
  digit_of_ascii (digit_to_ascii d) = Some d.
Proof.
  intros Hd.
  assert (d = 0 ∨ d = 1 ∨ d = 2 ∨ d = 3 ∨ d = 4 ∨ d = 5 ∨ d = 6 ∨ d = 7 ∨
          d = 8 ∨ d = 9) as Hcases by lia.
  destruct_or!; subst d; by split.
Qed.

Lemma padded_app width : ∀ n acc rest,
  padded width n acc +:+ rest = padded width n (acc +:+ rest).
Proof. induction width as [|w IH]; intros n acc rest; simpl; [done|apply IH]. Qed.

Lemma has_shape_padded width : ∀ n shape acc,
  has_shape shape acc = true →
  has_shape (replicate width a_digit ++ shape) (padded width n acc) = true.
Proof.
  induction width as [|w IH]; intros n shape acc Hacc; [done|].
  rewrite replicate_S_end, <- app_assoc. apply IH. simpl.
  rewrite Hacc, andb_true_r. apply digit_to_ascii_ok, Z.mod_pos_bound. lia.
Qed.

Lemma take_digits_S k : ∀ acc s,
  take_digits (S k) acc s =
  take_digits k acc s ≫= λ '(v, rest), take_digits 1 v rest.
Proof.
  induction k as [|k IH]; intros acc s; [done|].
  destruct s as [|c s]; [done|].
  change (take_digits (S (S k)) acc (String c s))
    with (match digit_of_ascii c with
          | Some d => take_digits (S k) (acc * 10 + d) s
          | None => None
          end).
  change (take_digits (S k) acc (String c s))
    with (match digit_of_ascii c with
          | Some d => take_digits k (acc * 10 + d) s
          | None => None
          end).
  destruct (digit_of_ascii c); [apply IH|done].
Qed.

Lemma take_digits_padded width : ∀ n acc rest,
  0 ≤ n < 10 ^ Z.of_nat width →
  take_digits width acc (padded width n rest)
  = Some (acc * 10 ^ Z.of_nat width + n, rest).
Proof.
  induction width as [|w IH]; intros n acc rest Hn.
  - simpl in *. do 2 f_equal. lia.
  - rewrite Nat2Z.inj_succ, Z.pow_succ_r in * by lia.
    rewrite take_digits_S. cbn [padded]. rewrite IH
      by (split; [apply Z.div_pos; lia|apply Z.div_lt_upper_bound; lia]).
    cbn [mbind option_bind take_digits].
    destruct (digit_to_ascii_ok (n mod 10)) as [_ ->];
      [apply Z.mod_pos_bound; lia|].
    do 2 f_equal. pose proof (Z.div_mod n 10). lia.
Qed.

(** A zero-padded field has [width] digits, and they read back as [n]. *)
Lemma fmt_0d_ok (width : nat) n :
  0 ≤ n < 10 ^ Z.of_nat width →
  has_shape (replicate width a_digit) (fmt_0d width n) = true ∧
  ∀ rest, take_digits width 0 (fmt_0d width n +:+ rest) = Some (n, rest).
Proof.
  intros Hn. unfold fmt_0d, zero_padded.
  destruct (Z.ltb_spec n 0); [lia|].
  destruct (Z.ltb_spec n (10 ^ Z.of_nat width)); [|lia]. split.
  - rewrite <- (app_nil_r (replicate width a_digit)).
    by apply has_shape_padded.
  - intros rest. rewrite padded_app, take_digits_padded by done.
    by rewrite Z.mul_0_l.
Qed.

Lemma string_app_assoc (s1 s2 s3 : string) :
  (s1 +:+ s2) +:+ s3 = s1 +:+ (s2 +:+ s3).
Proof.
  induction s1 as [|c s1 IH]; [done|].
  change (String c ((s1 +:+ s2) +:+ s3) = String c (s1 +:+ (s2 +:+ s3))).
  by rewrite IH.
Qed.

Lemma has_shape_app shape1 shape2 s1 s2 :
  has_shape shape1 s1 = true → has_shape shape2 s2 = true →
  has_shape (shape1 ++ shape2) (s1 +:+ s2) = true.
Proof.
  revert s1. induction shape1 as [|k shape1 IH]; intros [|c s1]; simpl;
    try done.
  intros [-> Hs1]%andb_true_iff Hs2. simpl. by apply IH.
Qed.

(** A string without [+] followed by the offset [+00:00]: the replacement
    rewrites the offset and nothing else. *)
Lemma replace_utc_offset s :
  forallb (λ c, negb (Ascii.eqb "+" c)) (String.list_ascii_of_string s) = true →
  replace "+00:00" "Z" (s +:+ "+00:00") = s +:+ "Z".
Proof.
  unfold replace. induction s as [|c s IH]; [done|].
  cbn [String.list_ascii_of_string forallb].
  intros [Hc Hs]%andb_true_iff. apply negb_true_iff in Hc.
  change (String c s +:+ "+00:00") with (String c (s +:+ "+00:00")).
  cbn [replace_from startswith]. rewrite Hc. cbn [String.append].
  by rewrite IH.
Qed.

Lemma has_shape_no_plus shape s :
  Forall (λ k, k ≠ exactly "+"%char) shape →
  has_shape shape s = true →
  forallb (λ c, negb (Ascii.eqb "+" c)) (String.list_ascii_of_string s) = true.
Proof.
  intros Hshape. revert s.
  induction Hshape as [|k shape Hk _ IH]; intros [|c s]; try done.
  cbn [has_shape String.list_ascii_of_string forallb].
  intros [Hc Hs]%andb_true_iff. rewrite (IH _ Hs), andb_true_r.
  apply negb_true_iff.
  destruct (Ascii.eqb_spec "+" c) as [<-|]; [|done].
  destruct k as [|c']; [done|]. cbn [in_class] in Hc.
  apply Ascii.eqb_eq in Hc as ->. done.
Qed.

Lemma fields_text_shape f :
  fields_in_range f → has_shape iso8601_ms (fields_text f) = true.
Proof.
  intros (?&?&?&?&?&?&?). unfold fields_text, iso8601_ms.
  repeat first
    [ apply has_shape_app
    | apply fmt_0d_ok
    | reflexivity ]; lia.
Qed.

Lemma format_datetime_iso_text dt :
  datetime_in_range dt = true →
  ∃ f, fields_in_range f ∧ fields_instant f = dt / 1000 * 1000 ∧
       utils.format_datetime_iso dt = fields_text f +:+ "Z".
Proof.
  unfold datetime_in_range, datetime_min, datetime_max.
  intros [Hlo%Z.leb_le Hhi%Z.leb_le]%andb_true_iff.
  unfold utils.format_datetime_iso, isoformat_milliseconds.
  pose proof (civil_from_days_bounds (dt / 86400000000)) as Hciv.
  pose proof (days_from_civil_from_days (dt / 86400000000)) as Hinv.
  destruct (civil_from_days (dt / 86400000000)) as [[y m] d].
  destruct Hciv as (Hy & Hm & Hd); [Z.div_mod_to_equations; lia|].
  specialize (Hinv ltac:(Z.div_mod_to_equations; lia)).
  set (us := dt mod 86400000000).
  assert (0 ≤ us < 86400000000) by (subst us; Z.div_mod_to_equations; lia).
  set (f := {| year := y; month := m; day := d;
               hour := us / 3600000000;
               minute := us / 60000000 mod 60;
               second := us / 1000000 mod 60;
               millisecond := us mod 1000000 / 1000 |}).
  assert (fields_in_range f) as Hf.
  { unfold fields_in_range, f. simpl.
    split_and!; try lia; Z.div_mod_to_equations; lia. }
  exists f. split; [done|]. split.
  - unfold fields_instant, f. simpl. rewrite Hinv. subst us.
    Z.div_mod_to_equations. lia.
  - match goal with
    | |- replace _ _ ?s = _ => replace s with (fields_text f +:+ "+00:00")
    end.
    + apply replace_utc_offset.
      apply (has_shape_no_plus iso8601_ms); [|by apply fields_text_shape].
      unfold iso8601_ms. simpl. repeat constructor; discriminate.
    + unfold fields_text, f. cbn [year month day hour minute second millisecond].
      by repeat rewrite string_app_assoc.
Qed.

(** Every [datetime] is written [YYYY-MM-DDTHH:MM:SS.mmmZ]. *)
Lemma format_datetime_iso_shape dt :
  datetime_in_range dt = true →
  is_iso8601_ms_z (utils.format_datetime_iso dt) = true.
Proof.
  intros (f & Hf & _ & ->)%format_datetime_iso_text.
  apply has_shape_app; [by apply fields_text_shape|done].
Qed.

(** The example of the docstring, [datetime(2024, 1, 1, 12, 30, 45, 123456)],
    and the bounds of [datetime]. *)
Example format_datetime_iso_docstring :
  utils.format_datetime_iso 1704112245123456 = "2024-01-01T12:30:45.123Z" ∧
  utils.format_datetime_iso datetime_min = "0001-01-01T00:00:00.000Z" ∧
  utils.format_datetime_iso datetime_max = "9999-12-31T23:59:59.999Z".
Proof. by vm_compute. Qed.

(** The text read back is the instant, cut to the millisecond. *)
Lemma parse_format_datetime_iso dt :
  datetime_in_range dt = true →
  parse_iso8601_ms_z (utils.format_datetime_iso dt) = Some (dt / 1000 * 1000).
Proof.
  intros (f & (?&?&?&?&?&?&?) & <- & ->)%format_datetime_iso_text.
  assert (Hstep : ∀ (c : ascii) (rest : string) (k : string → option datetime),
            take_char c (String c rest) ≫= k = k rest).
  { intros c rest k. unfold take_char. by rewrite Ascii.eqb_refl. }
  unfold parse_iso8601_ms_z, fields_text.
  repeat rewrite string_app_assoc.
  rewrite (proj2 (fmt_0d_ok 4 (year f) ltac:(simpl; lia))). cbn [mbind option_bind].
  change ("-" +:+ ?r) with (String "-" r). rewrite Hstep.
  rewrite (proj2 (fmt_0d_ok 2 (month f) ltac:(simpl; lia))). cbn [mbind option_bind].
  change ("-" +:+ ?r) with (String "-" r). rewrite Hstep.
  rewrite (proj2 (fmt_0d_ok 2 (day f) ltac:(simpl; lia))). cbn [mbind option_bind].
  change ("T" +:+ ?r) with (String "T" r). rewrite Hstep.
  rewrite (proj2 (fmt_0d_ok 2 (hour f) ltac:(simpl; lia))). cbn [mbind option_bind].
  change (":" +:+ ?r) with (String ":" r). rewrite Hstep.
  rewrite (proj2 (fmt_0d_ok 2 (minute f) ltac:(simpl; lia))). cbn [mbind option_bind].
  change (":" +:+ ?r) with (String ":" r). rewrite Hstep.
  rewrite (proj2 (fmt_0d_ok 2 (second f) ltac:(simpl; lia))). cbn [mbind option_bind].
  change ("." +:+ ?r) with (String "." r). rewrite Hstep.
  rewrite (proj2 (fmt_0d_ok 3 (millisecond f) ltac:(simpl; lia))).
  cbn [mbind option_bind]. rewrite Hstep. done.
Qed.

Section expires_at.
Context `{PyRuntime}.

(** C6. A creation answered 200 at reference time [created_at] stores a row
    whose [expires_at] is [created_at] plus [ttl_seconds] seconds when
    [ttl_seconds] is supplied, and absent otherwise. After any sequence of
    calls the row still has this [expires_at], and so it has after a
    further successful fetch. That fetch returns it as [null] when absent,
    and otherwise as the text of [format_datetime_iso], which has the shape
    [YYYY-MM-DDTHH:MM:SS.mmmZ] and reads back as [expires_at] cut to the
    millisecond. *)
Theorem expires_at_is_fixed_at_creation env clock token body request
    (db0 db : main.Session) response :
  main.post_api_pastes env clock token body request db0 = (response, db) →
  main.status_code response = 200 →
  ∃ created_at p,
    utils.get_current_time env request clock = Ok created_at ∧
    db !! token = Some p ∧
    models.created_at p = created_at ∧
    models.expires_at p =
      match schemas.ttl_seconds body with
      | Some T => Some (created_at + T * 1000000)
      | None => None
      end ∧
    (∀ cs, ∃ q, main.serve_all db cs !! token = Some q ∧
                models.expires_at q = models.expires_at p) ∧
    (∀ cs env' clock' request' response' db',
       main.fetch_paste env' clock' token request' (main.serve_all db cs)
       = (response', db') →
       main.status_code response' = 200 →
       (∃ q, db' !! token = Some q ∧
             models.expires_at q = models.expires_at p) ∧
       (∃ content remaining_views,
          response' =
          {| main.content :=
               main.fetch_json content remaining_views
                 (utils.format_datetime_iso <$> models.expires_at p);
             main.status_code := 200 |})) ∧
    (∀ s, utils.format_datetime_iso <$> models.expires_at p = Some s →
          is_iso8601_ms_z s = true ∧
          ∃ e, models.expires_at p = Some e ∧
               parse_iso8601_ms_z s = Some (e / 1000 * 1000)).
Proof.
  intros Hpost H200.
  destruct (post_api_pastes_created _ _ _ _ _ _ _ _ Hpost H200)
    as (created_at & Hcreated & _ & _ & -> & Hrange & _).
  set (fresh := new_paste token body created_at) in *.
  exists created_at, fresh.
  assert (Hkept : ∀ cs, ∃ q,
            main.serve_all (<[token := fresh]> db0) cs !! token = Some q ∧
            models.expires_at q = models.expires_at fresh).
  { intros cs.
    destruct (serve_all_evolves cs (<[token := fresh]> db0) token fresh)
      as (q & Hq & (_ & _ & _ & _ & _ & Hexp) & _); [apply lookup_insert_eq|].
    eauto. }
  split_and!.
  - done.
  - apply lookup_insert_eq.
  - done.
  - unfold fresh, new_paste. simpl. by destruct (schemas.ttl_seconds body).
  - done.
  - intros cs env' clock' request' response' db' Hfetch H200'.
    destruct (Hkept cs) as (q & Hq & Hexp).
    destruct (fetch_paste_200_inv _ _ _ _ _ _ _ Hfetch H200')
      as (q' & now & _ & Hq' & _ & -> & ->).
    assert (q' = q) as -> by congruence.
    destruct (viewed_same_frame q) as (_ & _ & _ & _ & _ & Hexp').
    split.
    + exists (main.viewed q). rewrite lookup_insert_eq. split; congruence.
    + do 2 eexists. by rewrite Hexp', Hexp.
  - intros s Hs. destruct (models.expires_at fresh) as [e|] eqn:He; [|done].
    injection Hs as <-. specialize (Hrange e eq_refl). split.
    + by apply format_datetime_iso_shape.
    + exists e. split; [done|]. by apply parse_format_datetime_iso.
Qed.

End expires_at.

(** The round trip of the specification: "Hello, World!" created in test
    mode at 2026-01-31T11:00:00Z with [ttl_seconds = 3600] and
    [max_views = 10], then fetched, returns 9 remaining views and the expiry
    2026-01-31T12:00:00.000Z. *)
Lemma expires_at_is_fixed_at_creation_witness :
  let body :=
    {| schemas.content := str_of_string "Hello, World!";
       schemas.ttl_seconds := Some 3600; schemas.max_views := Some 10 |} in
  let created :=
    main.post_api_pastes sample.test_mode sample.wall "abc" body
      (sample.request_at "1769857200000") ∅ in
  let fetched :=
    main.fetch_paste sample.test_mode sample.wall "abc"
      (sample.request_at "1769857200000") (main.serve_all (snd created) []) in
  fst fetched =
    {| main.content :=
         main.fetch_json (str_of_string "Hello, World!") (Some 9)
           (Some "2026-01-31T12:00:00.000Z");
       main.status_code := 200 |} ∧
  ∃ created_at p,
    snd created !! "abc" = Some p ∧
    models.expires_at p = Some (created_at + 3600 * 1000000) ∧
    ∃ q, snd fetched !! "abc" = Some q ∧
         models.expires_at q = models.expires_at p.
Proof.
  intros body created fetched. split; [vm_compute; reflexivity|].
  destruct (expires_at_is_fixed_at_creation sample.test_mode sample.wall
              "abc" body (sample.request_at "1769857200000") ∅
              (snd created) (fst created))
    as (created_at & p & _ & Hp & _ & Hexp & _ & Hfetch & _).
  - vm_compute. reflexivity.
  - vm_compute. reflexivity.
  - exists created_at, p. split; [exact Hp|]. split; [exact Hexp|].
    refine (proj1 (Hfetch [] sample.test_mode sample.wall
                     (sample.request_at "1769857200000")
                     (fst fetched) (snd fetched) _ _)).
    + vm_compute. reflexivity.
    + vm_compute. reflexivity.
Defined.

(** * Further properties of the handlers *)

(** ** The tables that the handlers build *)

Section reachable.
Context `{PyRuntime}.

Lemma new_paste_well_formed token body created_at :
  schemas.validation_errors body = [] →
  (∀ e, models.expires_at (new_paste token body created_at) = Some e →
        datetime_in_range e = true) →
  well_formed_row token (new_paste token body created_at).
Proof.
  intros (Hcontent & Httl & Hmax)%validation_errors_nil Hrange.
  unfold well_formed_row, new_paste in *. simpl in *.
  split_and!; try done.
  intros m Hm. specialize (Hmax m Hm). split_and!; [done|lia|lia].
Qed.

Lemma set_is_active_false_well_formed k p :
  well_formed_row k p → well_formed_row k (models.set_is_active false p).
Proof.
  intros (?&?&?&Hmax&?&?&?). unfold well_formed_row. simpl.
  split_and!; try done. intros m Hm. destruct (Hmax m Hm) as (?&?&_). done.
Qed.

Lemma viewed_well_formed clock now k p :
  models.is_available clock p (Some now) = true →
  well_formed_row k p → well_formed_row k (main.viewed p).
Proof.
  rewrite is_available_spec.
  intros [[Hon _]%andb_true_iff Hlim%negb_true_iff]%andb_true_iff.
  intros (Hid & Hcontent & Hviews & Hmax & Httl & Hexp & Hrange).
  destruct (viewed_same_frame p) as (Eid & Econtent & Ettl & Emax & Ecr & Eexp).
  unfold well_formed_row.
  rewrite Eid, Econtent, Ettl, Emax, Ecr, Eexp, viewed_current_views,
    viewed_is_active, Hon.
  split_and!; try done; [lia|].
  intros m Hm. destruct (Hmax m Hm) as (? & ? & _).
  unfold models.is_view_limit_reached in *. simpl. rewrite Hm in *.
  apply Z.leb_gt in Hlim. split_and!; [done|lia|].
  intros Heq. apply negb_false_iff, Z.leb_le. lia.
Qed.

(** Every call keeps the table well formed. *)
Lemma serve_well_formed (db : main.Session) c :
  well_formed db → well_formed (main.serve db c).
Proof.
  intros Hdb. unfold main.serve.
  destruct (main.call_route c) as [token body|pid|pid].
  - destruct (post_api_pastes_effect (main.call_env c) (main.call_clock c)
                token body (main.call_request c) db)
      as [[-> _]|(created_at & _ & Hval & _ & Hrange & -> & _)]; [done|].
    apply map_Forall_insert_2; [|done]. by apply new_paste_well_formed.
  - destruct (fetch_paste_table (main.call_env c) (main.call_clock c) pid
                (main.call_request c) db)
      as [->|(p & now & _ & Hp & [[_ ->]|[Hav ->]])]; [done|..];
      (apply map_Forall_insert_2; [|done]); specialize (Hdb pid p Hp).
    + by apply set_is_active_false_well_formed.
    + by eapply viewed_well_formed.
  - destruct (view_paste_table (main.call_env c) (main.call_clock c) pid
                (main.call_request c) db)
      as [->|(p & now & _ & Hp & _ & ->)]; [done|].
    apply map_Forall_insert_2; [|done].
    by apply set_is_active_false_well_formed, (Hdb pid).
Qed.

Lemma serve_all_well_formed cs : ∀ db : main.Session,
  well_formed db → well_formed (main.serve_all db cs).
Proof.
  induction cs as [|c cs IH]; intros db Hdb; [done|].
  simpl. by apply IH, serve_well_formed.
Qed.

(** X1. In every table that the handlers build from the empty one, the view
    count of a row is never negative; when the row has a view limit, the
    limit is at least 1, the count is at most the limit, the row is off once
    the count equals the limit, and [get_remaining_views] is the limit minus
    the count, without clamping. *)
Theorem rows_stay_within_their_view_budget cs k p :
  main.serve_all ∅ cs !! k = Some p →
  0 ≤ models.current_views p ∧
  ∀ m, models.max_views p = Some m →
    1 ≤ m ∧ models.current_views p ≤ m ∧
    (models.current_views p = m → models.is_active p = false) ∧
    models.get_remaining_views p = Some (m - models.current_views p).
Proof.
  intros Hp.
  destruct (serve_all_well_formed cs ∅ (map_Forall_empty _) k p Hp)
    as (_ & _ & Hviews & Hmax & _).
  split; [done|]. intros m Hm. destruct (Hmax m Hm) as (? & ? & ?).
  split_and!; try done.
  unfold models.get_remaining_views. rewrite Hm. f_equal. lia.
Qed.

(** X2. In every table that the handlers build from the empty one, a row is
    stored under its own id, its content is not blank, and its expiry is
    consistent: [expires_at] is absent exactly when [ttl_seconds] is, and
    otherwise [ttl_seconds] is at least 1 and [expires_at] is [created_at]
    plus [ttl_seconds] seconds, a [datetime] in range and after
    [created_at]. *)
Theorem rows_keep_their_expiry_consistent cs k p :
  main.serve_all ∅ cs !! k = Some p →
  models.id p = k ∧
  strip (models.content p) ≠ [] ∧
  (models.expires_at p = None ↔ models.ttl_seconds p = None) ∧
  ∀ T, models.ttl_seconds p = Some T →
    1 ≤ T ∧
    models.expires_at p = Some (models.created_at p + T * 1000000) ∧
    datetime_in_range (models.created_at p + T * 1000000) = true ∧
    models.created_at p < models.created_at p + T * 1000000.
Proof.
  intros Hp.
  destruct (serve_all_well_formed cs ∅ (map_Forall_empty _) k p Hp)
    as (Hid & Hcontent & _ & _ & Httl & Hexp & Hrange).
  split; [done|]. split; [done|]. split.
  - rewrite Hexp. by destruct (models.ttl_seconds p).
  - intros T HT. specialize (Httl T HT). rewrite HT in Hexp. simpl in Hexp.
    split_and!; [done|done|by apply Hrange|lia].
Qed.

End reachable.

(** After its creation and one fetch, the paste of [sample.history] has used
    one of its two views and is still on. *)
Lemma rows_stay_within_their_view_budget_witness :
  main.serve_all ∅ sample.history !! "abc" = Some (main.viewed sample.paste) ∧
  0 ≤ models.current_views (main.viewed sample.paste) ∧
  ∀ m, models.max_views (main.viewed sample.paste) = Some m →
    1 ≤ m ∧ models.current_views (main.viewed sample.paste) ≤ m ∧
    (models.current_views (main.viewed sample.paste) = m →
     models.is_active (main.viewed sample.paste) = false) ∧
    models.get_remaining_views (main.viewed sample.paste) =
      Some (m - models.current_views (main.viewed sample.paste)).
Proof.
  assert (main.serve_all ∅ sample.history !! "abc" =
          Some (main.viewed sample.paste)) as Hp by (vm_compute; reflexivity).
  split; [exact Hp|].
  exact (rows_stay_within_their_view_budget sample.history "abc" _ Hp).
Defined.

Lemma rows_keep_their_expiry_consistent_witness :
  main.serve_all ∅ sample.history !! "abc" = Some (main.viewed sample.paste) ∧
  models.id (main.viewed sample.paste) = "abc" ∧
  models.expires_at (main.viewed sample.paste) =
    Some (sample.t0 + 60 * 1000000).
Proof.
  assert (main.serve_all ∅ sample.history !! "abc" =
          Some (main.viewed sample.paste)) as Hp by (vm_compute; reflexivity).
  split; [exact Hp|].
  destruct (rows_keep_their_expiry_consistent sample.history "abc" _ Hp)
    as (Hid & _ & _ & Hexp).
  split; [exact Hid|].
  exact (proj1 (proj2 (Hexp 60 eq_refl))).
Defined.

(** ** The bodies that [PasteCreate] accepts *)

Lemma Forall_isspace_Exists s :
  ¬ Forall (λ c, isspace c = true) s ↔ Exists (λ c, isspace c = false) s.
Proof.
  induction s as [|c s IH].
  - split; [intros []; constructor | by intros ?%Exists_nil].
  - rewrite Forall_cons, Exists_cons, <- IH.
    destruct (isspace c); split.
    + intros Hn. right. intros Hs. by apply Hn.
    + intros [?|Hn] [_ Hs]; [done|by apply Hn].
    + by left.
    + by intros _ [? _].
Qed.

(** X3. A body passes the validators of [PasteCreate] exactly when its
    content has a character that is not white space, and [ttl_seconds] and
    [max_views] are each absent or at least 1. *)
Theorem body_is_accepted_iff body :
  schemas.validation_errors body = [] ↔
  Exists (λ c, isspace c = false) (schemas.content body) ∧
  (∀ T, schemas.ttl_seconds body = Some T → 1 ≤ T) ∧
  (∀ N, schemas.max_views body = Some N → 1 ≤ N).
Proof.
  rewrite <- Forall_isspace_Exists, <- strip_nil. split.
  - apply validation_errors_nil.
  - intros (Hcontent & Httl & Hmax).
    unfold schemas.validation_errors, schemas.content_not_empty,
      schemas.ttl_positive, schemas.max_views_positive.
    destruct (schemas.content body) as [|c s] eqn:Hc; [done|]. simpl.
    destruct (strip (c :: s)) eqn:Hs; [done|]. simpl.
    destruct (schemas.ttl_seconds body) as [T|]; simpl.
    + specialize (Httl T eq_refl).
      destruct (Z.ltb_spec T 1); [lia|]. simpl.
      destruct (schemas.max_views body) as [N|]; simpl; [|done].
      specialize (Hmax N eq_refl). by destruct (Z.ltb_spec N 1); [lia|].
    + destruct (schemas.max_views body) as [N|]; simpl; [|done].
      specialize (Hmax N eq_refl). by destruct (Z.ltb_spec N 1); [lia|].
Qed.

(** ** The URL of a paste *)

Lemma rstrip_slash_slashes k : rstrip_slash (slashes k) = "".
Proof. induction k as [|k IH]; [done|]. simpl. by rewrite IH. Qed.

Lemma rstrip_slash_decompose s :
  ∃ k, s = rstrip_slash s +:+ slashes k ∧
       ends_with_slash (rstrip_slash s) = false.
Proof.
  induction s as [|c s (k & Hs & Hend)]; [by exists O|]. simpl.
  destruct (rstrip_slash s) as [|c' r] eqn:Hr.
  - destruct (Ascii.eqb c "/") eqn:Hc.
    + apply Ascii.eqb_eq in Hc as ->. exists (S k). simpl. by rewrite Hs at 1.
    + exists k. simpl. rewrite Hc. by rewrite Hs at 1.
  - exists k. split; [by rewrite Hs at 1|done].
Qed.

Lemma rstrip_slash_app b k :
  ends_with_slash b = false → rstrip_slash (b +:+ slashes k) = b.
Proof.
  induction b as [|c b IH]; [intros _; apply rstrip_slash_slashes|].
  destruct b as [|c' b'].
  - intros Hc. simpl in *. by rewrite (IH eq_refl), Hc.
  - intros Hend. simpl in *. by rewrite (IH Hend).
Qed.

(** X4. [get_base_url] removes exactly the slashes that end
    [request.base_url]: the base URL is the result followed by slashes only,
    the result does not end with a slash, and it is the only such text.
    [build_paste_url] is the result followed by [/p/] and the id. *)
Theorem build_paste_url_strips_the_slashes request paste_id :
  ∃ k,
    utils.base_url request = utils.get_base_url request +:+ slashes k ∧
    ends_with_slash (utils.get_base_url request) = false ∧
    (∀ b k', utils.base_url request = b +:+ slashes k' →
             ends_with_slash b = false → b = utils.get_base_url request) ∧
    utils.build_paste_url request paste_id =
      utils.get_base_url request +:+ "/p/" +:+ paste_id.
Proof.
  unfold utils.build_paste_url, utils.get_base_url.
  destruct (rstrip_slash_decompose (utils.base_url request)) as (k & Hk & Hend).
  exists k. split_and!; [done|done| |done].
  intros b k' -> Hb. by rewrite rstrip_slash_app.
Qed.

(** ** What a creation stores *)

Section creation_effect.
Context `{PyRuntime}.

(** X5. A creation answered 200 found the id free, returns the id with its
    URL and adds one row under it: unviewed, on, with the content,
    [ttl_seconds] and [max_views] of the body; every other row is kept. A
    creation answered otherwise leaves the table as it is, and this is the
    case whenever the id is taken: no row is overwritten. *)
Theorem create_paste_adds_one_row env clock token body request
    (db : main.Session) :
  let r := main.post_api_pastes env clock token body request db in
  (main.status_code (fst r) = 200 →
     db !! token = None ∧
     main.content (fst r) =
       main.created_json token (utils.build_paste_url request token) ∧
     dom (snd r) = {[ token ]} ∪ dom db ∧
     (∀ k, k ≠ token → snd r !! k = db !! k) ∧
     ∃ p, snd r !! token = Some p ∧
          models.id p = token ∧
          models.content p = schemas.content body ∧
          models.ttl_seconds p = schemas.ttl_seconds body ∧
          models.max_views p = schemas.max_views body ∧
          models.current_views p = 0 ∧
          models.is_active p = true) ∧
  (main.status_code (fst r) ≠ 200 → snd r = db) ∧
  (is_Some (db !! token) → main.status_code (fst r) ≠ 200).
Proof.
  cbv zeta.
  destruct (post_api_pastes_effect env clock token body request db)
    as [[Hdb Hstatus]|(created_at & _ & _ & Hfree & _ & Hr & _)].
  - split_and!; [done|done|]. by intros _.
  - rewrite Hr. simpl. split_and!.
    + intros _. split_and!; [done|done|by rewrite dom_insert_L| |].
      * intros k Hk. by rewrite lookup_insert_ne.
      * exists (new_paste token body created_at).
        by rewrite lookup_insert_eq.
    + done.
    + rewrite Hfree. by intros [? [=]].
Qed.

End creation_effect.

(** ** The page and the API *)

Section page_and_api.
Context `{PyRuntime}.

(** A page render answered 200 found the row available, shows its content
    and leaves the table as it is. *)
Lemma view_paste_200_inv env clock paste_id request (db : main.Session) :
  main.html_status_code
    (fst (main.view_paste env clock paste_id request db)) = 200 →
  ∃ p now,
    utils.get_current_time env request clock = Ok now ∧
    db !! paste_id = Some p ∧
    models.is_available clock p (Some now) = true ∧
    main.view_paste env clock paste_id request db =
      ({| main.html_content :=
            main.html_template "view_paste.html" request paste_id
              (models.content p);
          main.html_status_code := 200 |}, db).
Proof.
  unfold main.view_paste, main.query_first.
  destruct (utils.get_current_time env request clock) as [now|e]; simpl;
    [|done].
  destruct (db !! paste_id) as [p|] eqn:Hdb; simpl;
    [|by destruct (has_nul paste_id)].
  destruct (models.is_available clock p (Some now)) eqn:Hav; simpl; [|done].
  intros _. by exists p, now.
Qed.

(** X6. The content of a paste is stored and returned as it was sent, white
    space included: after a creation answered 200 and any later calls, a
    fetch of the paste answered 200 returns the content of the body, and a
    page render answered 200 shows it. *)
Theorem content_is_returned_as_sent env clock token body request
    (db0 db : main.Session) response cs :
  main.post_api_pastes env clock token body request db0 = (response, db) →
  main.status_code response = 200 →
  (∀ env' clock' request',
     let r := fst (main.fetch_paste env' clock' token request'
                     (main.serve_all db cs)) in
     main.status_code r = 200 →
     ∃ remaining_views expires_at,
       main.content r =
         main.fetch_json (schemas.content body) remaining_views expires_at) ∧
  (∀ env' clock' request',
     let r := fst (main.view_paste env' clock' token request'
                     (main.serve_all db cs)) in
     main.html_status_code r = 200 →
     main.html_content r =
       main.html_template "view_paste.html" request' token
         (schemas.content body)).
Proof.
  intros Hpost H200.
  destruct (post_api_pastes_created _ _ _ _ _ _ _ _ Hpost H200)
    as (created_at & _ & _ & _ & -> & _).
  destruct (serve_all_evolves cs (<[token := new_paste token body created_at]> db0)
              token _ (lookup_insert_eq _ _ _))
    as (p & Hp & (_ & Hcontent & _) & _).
  simpl in Hcontent. split; intros env' clock' request'; cbv zeta.
  - destruct (main.fetch_paste env' clock' token request' (main.serve_all _ cs))
      as [r db'] eqn:Hfetch. simpl. intros Hr.
    destruct (fetch_paste_200_inv _ _ _ _ _ _ _ Hfetch Hr)
      as (q & now & _ & Hq & _ & -> & _).
    rewrite Hp in Hq. injection Hq as <-.
    destruct (viewed_same_frame p) as (_ & -> & _). simpl.
    rewrite Hcontent. eauto.
  - intros (q & now & _ & Hq & _ & ->)%view_paste_200_inv.
    rewrite Hp in Hq. injection Hq as <-. simpl. by rewrite Hcontent.
Qed.


End page_and_api.

(** The paste of [sample.plain] keeps the white space around its content
    through a creation, a fetch and a page render. *)
Lemma content_is_returned_as_sent_witness :
  let created :=
    main.post_api_pastes sample.production sample.t0 "abc" sample.plain
      sample.request ∅ in
  (∃ remaining_views expires_at,
     main.content
       (fst (main.fetch_paste sample.production sample.t0 "abc" sample.request
               (main.serve_all (snd created) [sample.fetch]))) =
       main.fetch_json (str_of_string "  x ") remaining_views expires_at) ∧
  main.html_content
    (fst (main.view_paste sample.production sample.t0 "abc" sample.request
            (main.serve_all (snd created) [sample.fetch]))) =
    main.html_template "view_paste.html" sample.request "abc"
      (str_of_string "  x ").
Proof.
  intros created.
  destruct (content_is_returned_as_sent sample.production sample.t0 "abc"
              sample.plain sample.request ∅ (snd created) (fst created)
              [sample.fetch]) as [Hfetch Hpage].
  - vm_compute. reflexivity.
  - vm_compute. reflexivity.
  - split.
    + apply (Hfetch sample.production sample.t0 sample.request).
      vm_compute. reflexivity.
    + apply (Hpage sample.production sample.t0 sample.request).
      vm_compute. reflexivity.
Defined.

(** ** When [get_current_time] raises *)

Section no_reference_time.
Context `{PyRuntime}.

Lemma get_current_time_Raise_inv env request clock e :
  utils.get_current_time env request clock = Raise e →
  env !! "TEST_MODE" = Some "1" ∧
  ∃ h ms, utils.headers request !! "x-test-now-ms" = Some h ∧ h ≠ "" ∧
    py_int h = Some ms ∧ fromtimestamp_ms ms = Raise e ∧
    is_ValueError_or_OSError e = false.
Proof.
  unfold utils.get_current_time.
  case_bool_decide as Hmode; [|done].
  destruct (utils.headers request !! "x-test-now-ms") as [h|] eqn:Hhdr;
    [|done].
  case_bool_decide as Hh; [done|].
  destruct (py_int h) as [ms|] eqn:Hint; [|done].
  destruct (fromtimestamp_ms ms) as [dt|e'] eqn:Hms; [done|].
  destruct (is_ValueError_or_OSError e') eqn:He'; [done|].
  intros [= <-]. split; [done|]. by exists h, ms.
Qed.

(** X9. [get_current_time] raises only in test mode, for a header that is
    not empty, that [int()] accepts and whose conversion by
    [datetime.fromtimestamp] raises something other than [ValueError] and
    [OSError]; it then raises that exception. In every other case it returns
    a time. *)
Theorem get_current_time_raises env request clock e :
  utils.get_current_time env request clock = Raise e ↔
  env !! "TEST_MODE" = Some "1" ∧
  ∃ h ms, utils.headers request !! "x-test-now-ms" = Some h ∧ h ≠ "" ∧
    py_int h = Some ms ∧ fromtimestamp_ms ms = Raise e ∧
    is_ValueError_or_OSError e = false.
Proof.
  split; [apply get_current_time_Raise_inv|].
  intros (Hmode & h & ms & Hh & Hne & Hint & Hms & He).
  unfold utils.get_current_time.
  rewrite bool_decide_eq_true_2 by done. rewrite Hh.
  rewrite bool_decide_eq_false_2 by done. by rewrite Hint, Hms, He.
Qed.

(** X10. When [get_current_time] raises, the fetch and the creation answer
    500 with the body [{"error": "Internal server error"}], never 400, the
    page answers 500 and shows the text of the exception, and the table is
    left as it is. *)
Theorem no_reference_time_is_answered_500 env clock request e
    (db : main.Session) :
  utils.get_current_time env request clock = Raise e →
  (∀ paste_id,
     main.fetch_paste env clock paste_id request db =
     ({| main.content := main.error_json "Internal server error";
         main.status_code := 500 |}, db)) ∧
  (∀ paste_id,
     main.view_paste env clock paste_id request db =
     ({| main.html_content :=
           main.html_text
             ("<html><body><h1>500 - Internal Server Error</h1><p>Error: "
              +:+ exn_str e +:+ "</p></body></html>");
         main.html_status_code := 500 |}, db)) ∧
  (∀ token body,
     schemas.validation_errors body = [] →
     main.post_api_pastes env clock token body request db =
     ({| main.content := main.error_json "Internal server error";
         main.status_code := 500 |}, db)).
Proof.
  intros Hraise.
  destruct (get_current_time_Raise_inv _ _ _ _ Hraise)
    as (_ & _ & _ & _ & _ & _ & _ & He).
  split_and!.
  - intros paste_id. unfold main.fetch_paste. by rewrite Hraise.
  - intros paste_id. unfold main.view_paste. by rewrite Hraise.
  - intros token body Hval. unfold main.post_api_pastes, main.create_paste.
    rewrite Hval, Hraise. simpl. by destruct e.
Qed.


End no_reference_time.

(** In test mode the header [sample.beyond_time_t] is an integer whose
    conversion raises [OverflowError]: the calls are answered 500. *)
Lemma no_reference_time_is_answered_500_witness :
  let e := OverflowError "timestamp out of range for platform time_t" in
  let request := sample.request_at sample.beyond_time_t in
  utils.get_current_time sample.test_mode request sample.wall = Raise e ∧
  main.fetch_paste sample.test_mode sample.wall "abc" request sample.db =
    ({| main.content := main.error_json "Internal server error";
        main.status_code := 500 |}, sample.db) ∧
  main.post_api_pastes sample.test_mode sample.wall "xyz" sample.plain
    request sample.db =
    ({| main.content := main.error_json "Internal server error";
        main.status_code := 500 |}, sample.db).
Proof.
  intros e request.
  assert (utils.get_current_time sample.test_mode request sample.wall =
          Raise e) as Hraise by (vm_compute; reflexivity).
  split; [exact Hraise|].
  destruct (no_reference_time_is_answered_500 sample.test_mode sample.wall
              request e sample.db Hraise) as (Hfetch & _ & Hpost).
  split; [apply Hfetch|]. apply Hpost. reflexivity.
Defined.


(** ** Counting the granted fetches *)

Section counting.
Context `{PyRuntime}.

(** One call adds to [current_views] of a row exactly when it is a fetch of
    the row answered 200, which finds the limit not reached. *)
Lemma serve_counts (db : main.Session) c paste_id p :
  db !! paste_id = Some p →
  ∃ p', main.serve db c !! paste_id = Some p' ∧
    models.max_views p' = models.max_views p ∧
    models.current_views p' =
      models.current_views p + (if is_granted paste_id db c then 1 else 0) ∧
    (is_granted paste_id db c = true →
     models.is_view_limit_reached p = false).
Proof.
  intros Hdb. unfold main.serve, is_granted.
  destruct (main.call_route c) as [token body|pid|pid].
  - destruct (post_api_pastes_table (main.call_env c) (main.call_clock c)
                token body (main.call_request c) db) as [->|(q & Hfree & -> & _)].
    + exists p. split_and!; [done|done|lia|done].
    + exists p. rewrite lookup_insert_ne by congruence.
      split_and!; [done|done|lia|done].
  - destruct (decide (pid = paste_id)) as [->|Hne].
    + rewrite bool_decide_eq_true_2 by done.
      destruct (utils.get_current_time (main.call_env c) (main.call_request c)
                  (main.call_clock c)) as [now|e] eqn:Hnow.
      * destruct (models.is_available (main.call_clock c) p (Some now))
          eqn:Hav.
        -- destruct (models.fits_Integer (models.current_views p + 1))
             eqn:Hfits.
           ++ rewrite (fetch_paste_available _ _ _ _ Hnow _ _ _ Hdb Hav Hfits).
              simpl. exists (main.viewed p). rewrite lookup_insert_eq.
              split_and!; [done| |apply viewed_current_views|].
              ** by destruct (viewed_same_frame p) as (_ & _ & _ & -> & _).
              ** intros _. rewrite is_available_spec in Hav.
                 by apply andb_true_iff in Hav as [_ ?%negb_true_iff].
           ++ rewrite (fetch_paste_full _ _ _ _ Hnow _ _ _ Hdb Hav Hfits).
              simpl. exists p. split_and!; [done|done|lia|done].
        -- rewrite (fetch_paste_unavailable _ _ _ _ Hnow _ _ _ Hdb Hav). simpl.
           exists (models.set_is_active false p). rewrite lookup_insert_eq.
           split_and!; [done|done|simpl; lia|done].
      * unfold main.fetch_paste. rewrite Hnow. simpl.
        exists p. split_and!; [done|done|lia|done].
    + rewrite bool_decide_eq_false_2 by done. simpl.
      destruct (fetch_paste_table (main.call_env c) (main.call_clock c) pid
                  (main.call_request c) db)
        as [->|(q & now & _ & Hq & [[_ ->]|[_ ->]])];
        [|rewrite lookup_insert_ne by done..];
        exists p; (split_and!; [done|done|lia|done]).
  - destruct (view_paste_table (main.call_env c) (main.call_clock c) pid
                (main.call_request c) db) as [->|(q & now & _ & Hq & _ & ->)].
    + exists p. split_and!; [done|done|lia|done].
    + destruct (decide (pid = paste_id)) as [->|Hne].
      * rewrite lookup_insert_eq. simplify_eq.
        exists (models.set_is_active false p).
        split_and!; [done|done|simpl; lia|done].
      * rewrite lookup_insert_ne by done.
        exists p. split_and!; [done|done|lia|done].
Qed.

Lemma serve_all_counts cs : ∀ (db : main.Session) paste_id p,
  db !! paste_id = Some p →
  ∃ p', main.serve_all db cs !! paste_id = Some p' ∧
    models.current_views p' = models.current_views p + granted paste_id db cs.
Proof.
  induction cs as [|c cs IH]; intros db paste_id p Hdb; simpl.
  - exists p. split; [done|lia].
  - destruct (serve_counts db c _ _ Hdb) as (q & Hq & _ & Hviews & _).
    destruct (IH _ _ _ Hq) as (r & Hr & Hviews').
    exists r. split; [done|]. lia.
Qed.

Lemma granted_bounded cs : ∀ (db : main.Session) paste_id p m,
  db !! paste_id = Some p →
  models.max_views p = Some m →
  models.current_views p ≤ m →
  0 ≤ granted paste_id db cs ≤ m - models.current_views p.
Proof.
  induction cs as [|c cs IH]; intros db paste_id p m Hdb Hmax Hviews; simpl.
  - lia.
  - destruct (serve_counts db c _ _ Hdb) as (q & Hq & Hmax' & Hviews' & Hlim).
    rewrite Hmax in Hmax'.
    assert (models.current_views q ≤ m) as Hq'.
    { destruct (is_granted paste_id db c); [|lia].
      specialize (Hlim eq_refl). unfold models.is_view_limit_reached in Hlim.
      rewrite Hmax in Hlim. apply Z.leb_gt in Hlim. lia. }
    specialize (IH _ _ _ _ Hq Hmax' Hq').
    destruct (is_granted paste_id db c); lia.
Qed.

(** X12. [current_views] counts the fetches that were granted: after any
    sequence of calls, a row is still in the table and its [current_views]
    is what it was plus the number of fetches of it answered 200. Page
    renders, creations, fetches of other pastes and fetches answered 404 or
    500 add nothing. *)
Theorem current_views_counts_the_granted_fetches (db : main.Session)
    paste_id p cs :
  db !! paste_id = Some p →
  ∃ p', main.serve_all db cs !! paste_id = Some p' ∧
    models.current_views p' = models.current_views p + granted paste_id db cs.
Proof. apply serve_all_counts. Qed.

(** X13. A paste created with [max_views = N] is granted at most [N]
    fetches: after a creation answered 200, in any sequence of creations,
    fetches and page renders, at any times and for any pastes, the number of
    fetches of the paste answered 200 is at most [N]. *)
Theorem granted_fetches_stay_within_max_views env clock token body request
    (db0 db : main.Session) response (N : Z) cs :
  main.post_api_pastes env clock token body request db0 = (response, db) →
  main.status_code response = 200 →
  schemas.max_views body = Some N →
  0 ≤ granted token db cs ≤ N.
Proof.
  intros Hpost H200 Hmax.
  destruct (post_api_pastes_created _ _ _ _ _ _ _ _ Hpost H200)
    as (created_at & _ & Hval & _ & -> & _).
  destruct (validation_errors_nil _ Hval) as (_ & _ & HN).
  specialize (HN N Hmax).
  pose proof (granted_bounded cs
                (<[token := new_paste token body created_at]> db0) token
                (new_paste token body created_at) N
                (lookup_insert_eq _ _ _) Hmax) as Hbound.
  simpl in Hbound. lia.
Qed.

End counting.

(** In [sample.history] the paste is fetched once and rendered once: its
    count is 1. *)
Lemma current_views_counts_the_granted_fetches_witness :
  ∃ p', main.serve_all sample.db [sample.fetch; sample.render] !! "abc"
        = Some p' ∧
    models.current_views p' =
      models.current_views sample.paste +
      granted "abc" sample.db [sample.fetch; sample.render].
Proof.
  apply (current_views_counts_the_granted_fetches sample.db "abc"
           sample.paste [sample.fetch; sample.render]).
  reflexivity.
Defined.

(** The paste of [sample.one_view], fetched three times, is granted at most
    one fetch. *)
Lemma granted_fetches_stay_within_max_views_witness :
  let created :=
    main.post_api_pastes sample.production sample.t0 "abc" sample.one_view
      sample.request ∅ in
  0 ≤ granted "abc" (snd created) [sample.fetch; sample.fetch; sample.fetch]
    ≤ 1.
Proof.
  intros created.
  apply (granted_fetches_stay_within_max_views sample.production sample.t0
           "abc" sample.one_view sample.request ∅ (snd created) (fst created)
           1 [sample.fetch; sample.fetch; sample.fetch]).
  - vm_compute. reflexivity.
  - vm_compute. reflexivity.
  - reflexivity.
Defined.

(** ** A paste without limits *)



Section unlimited.
Context `{PyRuntime}.




End unlimited.


(** ** A time to live beyond the range of [datetime] *)

Section expiry_out_of_range.
Context `{PyRuntime}.

(** X14. A body that passes the validation and whose [ttl_seconds] takes
    the expiry beyond the range of [datetime] is answered 500 with
    [{"error": "Internal server error"}], not 400, and nothing is stored. *)
Theorem expiry_out_of_range_is_answered_500 env clock token body request
    (db : main.Session) created_at (T : Z) :
  schemas.validation_errors body = [] →
  utils.get_current_time env request clock = Ok created_at →
  schemas.ttl_seconds body = Some T →
  datetime_in_range (created_at + T * 1000000) = false →
  main.post_api_pastes env clock token body request db =
  ({| main.content := main.error_json "Internal server error";
      main.status_code := 500 |}, db).
Proof.
  intros Hval Hnow HT Hrange.
  destruct (validation_errors_nil _ Hval) as (_ & Httl & _).
  specialize (Httl T HT).
  unfold main.post_api_pastes, main.create_paste.
  rewrite Hval, Hnow, HT. simpl.
  unfold main.int_truthy, utils.calculate_expiry_time, datetime_add_seconds.
  destruct (Z.eqb_spec T 0); [lia|]. simpl. by rewrite Hrange.
Qed.

End expiry_out_of_range.

(** [sample.long_lived] would expire in the year 33712. *)
Lemma expiry_out_of_range_is_answered_500_witness :
  main.post_api_pastes sample.production sample.t0 "abc" sample.long_lived
    sample.request ∅ =
  ({| main.content := main.error_json "Internal server error";
      main.status_code := 500 |}, ∅).
Proof.
  apply (expiry_out_of_range_is_answered_500 sample.production sample.t0
           "abc" sample.long_lived sample.request ∅ sample.t0
           1000000000000).
  - reflexivity.
  - reflexivity.
  - reflexivity.
  - reflexivity.
Defined.

(** ** Pastes do not interfere *)

Section isolation.
Context `{PyRuntime}.

Lemma serve_other_id (db : main.Session) c paste_id :
  route_id (main.call_route c) ≠ paste_id →
  main.serve db c !! paste_id = db !! paste_id.
Proof.
  unfold main.serve.
  destruct (main.call_route c) as [token body|pid|pid]; simpl; intros Hne.
  - destruct (post_api_pastes_table (main.call_env c) (main.call_clock c)
                token body (main.call_request c) db) as [->|(q & _ & -> & _)];
      [done|by rewrite lookup_insert_ne].
  - destruct (fetch_paste_table (main.call_env c) (main.call_clock c) pid
                (main.call_request c) db)
      as [->|(q & now & _ & _ & [[_ ->]|[_ ->]])];
      [done|by rewrite lookup_insert_ne..].
  - destruct (view_paste_table (main.call_env c) (main.call_clock c) pid
                (main.call_request c) db) as [->|(q & now & _ & _ & _ & ->)];
      [done|by rewrite lookup_insert_ne].
Qed.

(** X15. Calls that name other ids are not seen by a paste: after any
    sequence of creations, fetches and page renders of other ids, the row
    of [paste_id] is what it was, or still absent, and a fetch and a page
    render of it are answered as they would have been before. *)
Theorem calls_on_other_ids_are_not_seen (db : main.Session) paste_id cs
    env clock request :
  Forall (λ c, route_id (main.call_route c) ≠ paste_id) cs →
  main.serve_all db cs !! paste_id = db !! paste_id ∧
  fst (main.fetch_paste env clock paste_id request (main.serve_all db cs)) =
    fst (main.fetch_paste env clock paste_id request db) ∧
  fst (main.view_paste env clock paste_id request (main.serve_all db cs)) =
    fst (main.view_paste env clock paste_id request db).
Proof.
  intros Hcs.
  assert (main.serve_all db cs !! paste_id = db !! paste_id) as Hrow.
  { revert db. induction Hcs as [|c cs Hc _ IH]; intros db; [done|].
    simpl. by rewrite IH, serve_other_id. }
  split; [done|].
  unfold main.fetch_paste, main.view_paste, main.query_first. rewrite Hrow.
  destruct (utils.get_current_time env request clock) as [now|e]; [|done].
  simpl. destruct (db !! paste_id) as [p|]; simpl;
    [|by destruct (has_nul paste_id)].
  destruct (negb (models.is_available clock p (Some now))); [done|].
  simpl. split; [|done].
  unfold main.commit_view.
  by match goal with
     | |- context [models.fits_Integer ?n] =>
         destruct (models.fits_Integer n)
     end.
Qed.

End isolation.

(** The calls of [sample.history] name ["abc"]: the paste ["xyz"] is fetched
    after them as before them. *)
Lemma calls_on_other_ids_are_not_seen_witness :
  let db := <[ "xyz" := sample.plain_paste ]> sample.db in
  main.serve_all db sample.history !! "xyz" = db !! "xyz" ∧
  fst (main.fetch_paste sample.production sample.wall "xyz" sample.request
         (main.serve_all db sample.history)) =
    fst (main.fetch_paste sample.production sample.wall "xyz" sample.request
           db).
Proof.
  intros db.
  destruct (calls_on_other_ids_are_not_seen db "xyz" sample.history
              sample.production sample.wall sample.request)
    as (Hrow & Hfetch & _).
  - repeat constructor; discriminate.
  - split; [exact Hrow | exact Hfetch].
Defined.

(** ** What [format_datetime_iso] keeps of a [datetime] *)

Lemma isoformat_milliseconds_cut dt :
  isoformat_milliseconds (dt / 1000 * 1000) = isoformat_milliseconds dt.
Proof.
  unfold isoformat_milliseconds.
  replace (dt / 1000 * 1000 / 86400000000) with (dt / 86400000000)
    by (Z.div_mod_to_equations; lia).
  set (us := dt mod 86400000000).
  replace ((dt / 1000 * 1000) mod 86400000000) with (us / 1000 * 1000)
    by (subst us; Z.div_mod_to_equations; lia).
  replace (us / 1000 * 1000 / 3600000000) with (us / 3600000000)
    by (Z.div_mod_to_equations; lia).
  replace (us / 1000 * 1000 / 60000000) with (us / 60000000)
    by (Z.div_mod_to_equations; lia).
  replace (us / 1000 * 1000 / 1000000) with (us / 1000000)
    by (Z.div_mod_to_equations; lia).
  replace ((us / 1000 * 1000) mod 1000000 / 1000) with (us mod 1000000 / 1000)
    by (Z.div_mod_to_equations; lia).
  reflexivity.
Qed.

(** X16. [format_datetime_iso] drops the microseconds below the millisecond
    and nothing else: two [datetime]s are written alike exactly when they
    are in the same millisecond. *)
Theorem format_datetime_iso_keeps_the_millisecond dt1 dt2 :
  datetime_in_range dt1 = true →
  datetime_in_range dt2 = true →
  utils.format_datetime_iso dt1 = utils.format_datetime_iso dt2 ↔
  dt1 / 1000 = dt2 / 1000.
Proof.
  intros H1 H2. split.
  - intros Heq.
    pose proof (parse_format_datetime_iso dt1 H1) as P1.
    pose proof (parse_format_datetime_iso dt2 H2) as P2.
    rewrite Heq, P2 in P1. injection P1. lia.
  - intros Heq. unfold utils.format_datetime_iso.
    by rewrite <- (isoformat_milliseconds_cut dt1),
      <- (isoformat_milliseconds_cut dt2), Heq.
Qed.

(** 12:30:45.123456 and 12:30:45.123999 of 2024-01-01 are written alike. *)
Lemma format_datetime_iso_keeps_the_millisecond_witness :
  utils.format_datetime_iso 1704112245123456 =
  utils.format_datetime_iso 1704112245123999.
Proof.
  apply (format_datetime_iso_keeps_the_millisecond 1704112245123456
           1704112245123999); reflexivity.
Defined.

(** ** The paste ids *)

Lemma b64_char_url_safe i :
  is_url_safe (secrets.urlsafe_encode_translation (secrets.b64_char i)) = true.
Proof.
  unfold secrets.b64_char.
  assert (N.to_nat (N.land i 63) < 64)%nat as Hlt.
  { change 63%N with (N.ones 6). rewrite N.land_ones.
    pose proof (N.mod_upper_bound i (2 ^ 6)%N). lia. }
  revert Hlt. generalize (N.to_nat (N.land i 63)). intros j Hj.
  assert (forallb
            (λ j, is_url_safe
                    (secrets.urlsafe_encode_translation
                       (default "="%char
                          (String.get j secrets.table_b2a_base64))))
            (seq 0 64) = true) as Hall by (vm_compute; reflexivity).
  rewrite forallb_forall in Hall. apply Hall, in_seq. lia.
Qed.

Lemma rstrip_pad_pads k : secrets.rstrip_pad (pads k) = "".
Proof. induction k as [|k IH]; [done|]. simpl. by rewrite IH. Qed.

Lemma rstrip_pad_app s k :
  all_chars is_url_safe s = true → secrets.rstrip_pad (s +:+ pads k) = s.
Proof.
  induction s as [|c s IH]; [intros _; apply rstrip_pad_pads|].
  simpl. intros [Hc Hs]%andb_true_iff.
  change (String c s +:+ pads k) with (String c (s +:+ pads k)).
  simpl. rewrite (IH Hs). destruct s; [|done].
  destruct (Ascii.eqb_spec c "="%char) as [->|]; done.
Qed.

(** The encoding is a text of letters, digits, hyphens and underscores,
    four for three bytes, followed by padding. *)
Lemma urlsafe_b64encode_shape (n : nat) : ∀ s : list Byte.byte,
  (length s ≤ n)%nat →
  ∃ t k, secrets.urlsafe_b64encode s = t +:+ pads k ∧
    all_chars is_url_safe t = true ∧
    Z.of_nat (String.length t) = (4 * Z.of_nat (length s) + 2) / 3.
Proof.
  assert (Hpad : secrets.urlsafe_encode_translation "=" = "="%char) by done.
  induction n as [|n IH]; intros s Hs;
    (destruct s as [|a [|b [|c rest]]];
     [ by exists "", O
     | unfold secrets.urlsafe_b64encode;
       cbn [secrets.b2a_base64 secrets.translate]; rewrite Hpad;
       eexists (String _ (String _ "")), 2%nat;
       split; [reflexivity|]; split; [|reflexivity];
       cbn [all_chars]; by rewrite !b64_char_url_safe
     | unfold secrets.urlsafe_b64encode;
       cbn [secrets.b2a_base64 secrets.translate]; rewrite Hpad;
       eexists (String _ (String _ (String _ ""))), 1%nat;
       split; [reflexivity|]; split; [|reflexivity];
       cbn [all_chars]; by rewrite !b64_char_url_safe
     | ]); [simpl in Hs; lia|].
  destruct (IH rest) as (t & k & Ht & Hall & Hlen); [simpl in Hs; lia|].
  unfold secrets.urlsafe_b64encode in *.
  cbn [secrets.b2a_base64 secrets.translate]. rewrite Ht.
  eexists (String _ (String _ (String _ (String _ t)))), k.
  split; [reflexivity|]. split.
  - cbn [all_chars]. by rewrite !b64_char_url_safe.
  - cbn [String.length length]. rewrite !Nat2Z.inj_succ.
    Z.div_mod_to_equations. lia.
Qed.

(** X17. A paste id is made of letters, digits, hyphens and underscores
    only, and [generate_paste_id(length)] has [ceil(4 * length / 3)] of
    them, the padding being removed: the ids that [create_paste] draws with
    the default [length = 8] have 11 characters. *)
Theorem generate_paste_id_is_url_safe randbytes (length : nat) :
  List.length (randbytes length) = length →
  all_chars is_url_safe (generate_paste_id randbytes length) = true ∧
  String.length (generate_paste_id randbytes length) =
    ((4 * length + 2) / 3)%nat ∧
  (length = 8%nat →
   String.length (generate_paste_id randbytes length) = 11%nat).
Proof.
  intros Hlen.
  unfold generate_paste_id, secrets.token_urlsafe, secrets.token_bytes.
  destruct (urlsafe_b64encode_shape _ (randbytes length) (le_n _))
    as (t & k & -> & Hall & Ht).
  rewrite rstrip_pad_app by done. rewrite Hlen in Ht.
  assert (String.length t = ((4 * length + 2) / 3)%nat) as Hsize.
  { apply Nat2Z.inj. rewrite Ht, Nat2Z.inj_div. f_equal. lia. }
  split_and!; [done|done|]. intros ->. by rewrite Hsize.
Qed.

(** The bytes 200, 13, 77, 0, 255, 62, 63, 250 give the id [yA1NAP8-P_o]. *)
Lemma generate_paste_id_is_url_safe_witness :
  generate_paste_id sample.randbytes 8 = "yA1NAP8-P_o" ∧
  all_chars is_url_safe (generate_paste_id sample.randbytes 8) = true ∧
  String.length (generate_paste_id sample.randbytes 8) = 11%nat.
Proof.
  split; [vm_compute; reflexivity|].
  destruct (generate_paste_id_is_url_safe sample.randbytes 8 eq_refl)
    as (Hall & _ & Hsize).
  split; [exact Hall | exact (Hsize eq_refl)].
Defined.

(** The creation of [sample.body] under the free id ["abc"] is answered 200
    and stores one row; under the id taken by the paste of [sample.db] it is
    not, and the table is kept. *)
Lemma create_paste_adds_one_row_witness :
  (let r := main.post_api_pastes sample.production sample.t0 "abc"
              sample.body sample.request ∅ in
   main.content (fst r) =
     main.created_json "abc" (utils.build_paste_url sample.request "abc") ∧
   dom (snd r) = {[ "abc" ]} ∪ dom (∅ : main.Session)) ∧
  (let r := main.post_api_pastes sample.production sample.t0 "abc"
              sample.one_view sample.request sample.db in
   main.status_code (fst r) ≠ 200 ∧ snd r = sample.db).
Proof.
  split; cbv zeta.
  - destruct (create_paste_adds_one_row sample.production sample.t0 "abc"
                sample.body sample.request ∅) as (Hcreated & _ & _).
    destruct Hcreated as (_ & Hcontent & Hdom & _); [vm_compute; reflexivity|].
    split; [exact Hcontent | exact Hdom].
  - destruct (create_paste_adds_one_row sample.production sample.t0 "abc"
                sample.one_view sample.request sample.db)
      as (_ & Hkept & Htaken).
    assert (main.status_code
              (fst (main.post_api_pastes sample.production sample.t0 "abc"
                      sample.one_view sample.request sample.db)) ≠ 200)
      as Hstatus by (apply Htaken; eexists; reflexivity).
    split; [exact Hstatus | exact (Hkept Hstatus)].
Defined.

